(** * Interactive Beam: streaming replay cache and background caching job

    A shallow embedding of
    - [runners/interactive/background_caching_job.py]
      ([BackgroundCachingJob], the source-signature tracker and the
      needed-capture decision),
    - [runners/interactive/display/pcoll_visualization.py]
      ([_to_element_list]),
    - the streaming cache exercised by
      [runners/interactive/caching/streaming_cache_test.py]
    together with the properties the specification states about them. *)

From stdpp Require Import base numbers list strings gmap sets option sorting.
From stdpp Require Import pretty.

Local Open Scope Z_scope.

(* ===================================================================== *)
(** * Pipeline states *)
(* ===================================================================== *)

Module PipelineState.

(** Modelled from the spec: [apache_beam.runners.runner.PipelineState] is
    imported by [background_caching_job.py] but not part of the sources.
    The spec names the states Running, Done, Cancelled, Cancelling,
    "Updating/etc." and calls Done and Cancelled terminal; the remaining
    constructors stand for the "etc." states of the engine. *)
Inductive t : Type :=
| UNKNOWN | STARTING | STOPPED | RUNNING | DONE | FAILED | CANCELLED
| UPDATED | DRAINING | DRAINED | PENDING | CANCELLING | UNRECOGNIZED.

#[global] Instance eq_dec : EqDecision t.
Proof. solve_decision. Defined.

(** Modelled from the spec: [PipelineState.is_terminal].  Done and
    Cancelled are terminal, Running and Cancelling are not (spec, capture
    job controller); the other completed states are terminal as well. *)
Definition is_terminal (state : t) : bool :=
  match state with
  | DONE | FAILED | CANCELLED | UPDATED | DRAINED => true
  | _ => false
  end.

End PipelineState.

(* ===================================================================== *)
(** * The capture job controller: [BackgroundCachingJob] *)
(* ===================================================================== *)

Module Job.
Import PipelineState.

(** What [self._pipeline_result.cancel()] can do: move the job to another
    state, raise [NotImplementedError], or raise something else. *)
Inductive CancelReply : Type :=
| CancelsTo (state : PipelineState.t)
| NotImplementedError
| OtherError (what : string).

(** Calls a method makes on its collaborators, in program order. *)
Inductive Effect : Type :=
| PipelineResultCancel      (* self._pipeline_result.cancel() *)
| TimerCancel               (* self._timer.cancel() *)
| LogRecord (msg : string). (* a _LOGGER call *)

(** The fields of a [BackgroundCachingJob] object.  [_pipeline_result] is
    the state its engine handle reports; [_timer_alive] is
    [self._timer.is_alive()]. *)
Record BackgroundCachingJob : Type := mkJob {
  _pipeline_result : PipelineState.t;
  _timer_alive : bool;
  _timer_triggered : bool;
  _condition_checker_triggered : bool
}.

#[global] Instance job_eq_dec : EqDecision BackgroundCachingJob.
Proof. solve_decision. Defined.

Definition set_state (s : PipelineState.t) (j : BackgroundCachingJob) :=
  mkJob s (_timer_alive j) (_timer_triggered j)
        (_condition_checker_triggered j).
Definition set_timer_alive (b : bool) (j : BackgroundCachingJob) :=
  mkJob (_pipeline_result j) b (_timer_triggered j)
        (_condition_checker_triggered j).
Definition set_timer_triggered (b : bool) (j : BackgroundCachingJob) :=
  mkJob (_pipeline_result j) (_timer_alive j) b
        (_condition_checker_triggered j).
Definition set_condition_checker_triggered (b : bool)
    (j : BackgroundCachingJob) :=
  mkJob (_pipeline_result j) (_timer_alive j) (_timer_triggered j) b.

(** ** A state, trace and exception monad for the methods *)

Inductive Completion (A : Type) : Type :=
| Returns (a : A)
| Raises (what : string).
Arguments Returns {A} a.
Arguments Raises {A} what.

Record Run (A : Type) : Type := mkRun {
  job_after : BackgroundCachingJob;
  effects : list Effect;
  completion : Completion A
}.
Arguments mkRun {A}.
Arguments job_after {A}.
Arguments effects {A}.
Arguments completion {A}.

Definition M (A : Type) : Type := BackgroundCachingJob → Run A.

#[global] Instance M_ret : MRet M := λ A a j, mkRun j [] (Returns a).
#[global] Instance M_bind : MBind M := λ A B k m j,
  let r := m j in
  match completion r with
  | Returns a =>
      let r' := k a (job_after r) in
      mkRun (job_after r') (effects r ++ effects r') (completion r')
  | Raises what => mkRun (job_after r) (effects r) (Raises what)
  end.
Definition get : M BackgroundCachingJob := λ j, mkRun j [] (Returns j).
Definition modify (f : BackgroundCachingJob → BackgroundCachingJob)
  : M unit := λ j, mkRun (f j) [] (Returns tt).
Definition call (e : Effect) : M unit := λ j, mkRun j [e] (Returns tt).
Definition raise {A} (what : string) : M A := λ j, mkRun j [] (Raises what).

(** ** The methods *)

(** [__init__]: both flags start false; the timer is alive iff the limit
    checkers were started. *)
Definition __init__ (pipeline_result : PipelineState.t)
    (start_limit_checkers : bool) : BackgroundCachingJob :=
  mkJob pipeline_result start_limit_checkers false false.

Definition is_done (self : BackgroundCachingJob) : bool :=
  bool_decide (_pipeline_result self = DONE)
  || ((_timer_triggered self || _condition_checker_triggered self)
      && (bool_decide (_pipeline_result self = CANCELLED)
          || bool_decide (_pipeline_result self = CANCELLING))).

Definition is_running (self : BackgroundCachingJob) : bool :=
  bool_decide (_pipeline_result self = RUNNING).

(** [self._pipeline_result.cancel()] inside its [try]/[except
    NotImplementedError: pass]. *)
Definition try_pipeline_result_cancel (reply : CancelReply) : M unit :=
  call PipelineResultCancel ;;
  match reply with
  | CancelsTo s => modify (set_state s)
  | NotImplementedError => mret tt
  | OtherError what => raise what
  end.

Definition _cancel (reply : CancelReply) : M unit :=
  modify (set_timer_triggered true) ;;
  self ← get;
  if negb (is_terminal (_pipeline_result self))
  then try_pipeline_result_cancel reply
  else mret tt.

Definition cancel (reply : CancelReply) : M unit :=
  _cancel reply ;;
  modify (set_timer_triggered false) ;;
  self ← get;
  if _timer_alive self
  then call TimerCancel ;; modify (set_timer_alive false)
  else mret tt.

(** [capture_size_reached] is what
    [ie.current_env().options.capture_control.is_capture_size_reached()]
    answers at this poll. *)
Definition _should_end_condition_checker (capture_size_reached : bool)
    (reply : CancelReply) : M bool :=
  if capture_size_reached
  then modify (set_condition_checker_triggered true) ;;
       cancel reply ;;
       mret true
  else self ← get;
       if negb (_timer_alive self) then mret true else mret false.

(** [_background_caching_job_condition_checker]: the polling loop, run
    over the answers the environment gives at the successive polls. *)
Fixpoint _background_caching_job_condition_checker
    (polls : list (bool * CancelReply)) : M unit :=
  match polls with
  | [] => mret tt
  | (reached, reply) :: polls' =>
      stop ← _should_end_condition_checker reached reply;
      if (stop : bool) then mret tt
      else _background_caching_job_condition_checker polls'
  end.

(** ** What can happen to a job, one event at a time *)

Inductive Op : Type :=
| ExternalCancel (reply : CancelReply)
    (* [attempt_to_cancel_background_caching_job] calls job.cancel() *)
| TimerFires (reply : CancelReply)
    (* the [threading.Timer] runs self._cancel and ends *)
| CheckerPolls (capture_size_reached : bool) (reply : CancelReply)
    (* one iteration of the condition checker thread *)
| EngineMoves (state : PipelineState.t).
    (* the engine changes the job's state on its own *)

Definition step (op : Op) (j : BackgroundCachingJob)
  : BackgroundCachingJob :=
  match op with
  | ExternalCancel reply => job_after (cancel reply j)
  | TimerFires reply =>
      if _timer_alive j
      then set_timer_alive false (job_after (_cancel reply j))
      else j
  | CheckerPolls reached reply =>
      job_after (_should_end_condition_checker reached reply j)
  | EngineMoves s => set_state s j
  end.

Definition run (ops : list Op) (j : BackgroundCachingJob)
  : BackgroundCachingJob :=
  foldl (λ j op, step op j) j ops.

End Job.

(* ===================================================================== *)
(** * Events of the replay stream *)
(* ===================================================================== *)

Module TestStreamPayload.

(** The three-variant event union, with the field names the tests use to
    build the expected events.  Timestamps and durations are integer
    microseconds; [encoded_element] is the already encoded payload. *)
Record TimestampedElement : Type := mkTimestampedElement {
  encoded_element : string;
  timestamp : Z
}.

Inductive Event : Type :=
| AddElements (elements : list TimestampedElement) (tag : string)
| AdvanceWatermark (new_watermark : Z) (tag : string)
| AdvanceProcessingTime (advance_duration : Z).

#[global] Instance timestamped_element_eq_dec : EqDecision TimestampedElement.
Proof. solve_decision. Defined.
#[global] Instance event_eq_dec : EqDecision Event.
Proof. solve_decision. Defined.

Definition is_processing_time_event (e : Event) : bool :=
  match e with AdvanceProcessingTime _ => true | _ => false end.

End TestStreamPayload.

(* ===================================================================== *)
(** * The streaming replay cache *)
(* ===================================================================== *)

Module StreamingCache.
Import TestStreamPayload.

Definition micros_of_secs (secs : Z) : Z := secs * 10 ^ 6.

(** Modelled from the spec: [caching/streaming_cache.py] is not among the
    sources; only its test is.  The event-log storage keeps one append-only
    log per cache entry; an entry is named by its labels, as in
    [cache.write(records, 'letters')], [cache.sink(['records'])] and
    [cache_manager().read('full', cache_key)]. *)
Definition exists_ (cache : gmap (list string) (list Event))
    (labels : list string) : bool :=
  bool_decide (is_Some (cache !! labels)).

(** Modelled from the spec: [append]; creates the log if absent. *)
Definition write (events : list Event) (labels : list string)
    (cache : gmap (list string) (list Event))
  : gmap (list string) (list Event) :=
  <[labels := default [] (cache !! labels) ++ events]> cache.

(** Modelled from the spec: [open_cursor]; a missing entry reads as the
    empty sequence. *)
Definition open_cursor (cache : gmap (list string) (list Event))
    (labels : list string) : list Event :=
  default [] (cache !! labels).

(** ** The clock-merging reader *)

(** Modelled from the spec: the recorded processing-time position of each
    element or watermark event of one log, reconstructed by accumulating
    that log's own [AdvanceProcessingTime] deltas from [stream_time]. *)
Fixpoint processing_time_positions (stream_time : Z) (log : list Event)
  : list (Z * Event) :=
  match log with
  | [] => []
  | AdvanceProcessingTime d :: log' =>
      processing_time_positions (stream_time + d) log'
  | e :: log' => (stream_time, e) :: processing_time_positions stream_time log'
  end.

(** Modelled from the spec: one merge step over the groups' cursors (the
    not-yet-emitted events of each group).  The chosen event is a head of
    smallest position; of two heads at the same position the one of the
    group listed first wins. *)
Fixpoint next_event (cursors : list (list (Z * Event)))
  : option (nat * (Z * Event)) :=
  match cursors with
  | [] => None
  | c :: cursors' =>
      let later := prod_map S id <$> next_event cursors' in
      match c with
      | [] => later
      | (p, e) :: _ =>
          match later with
          | Some (i, (q, e')) =>
              if q <? p then Some (i, (q, e')) else Some (0%nat, (p, e))
          | None => Some (0%nat, (p, e))
          end
      end
  end.

Definition advance_cursor (i : nat) (cursors : list (list (Z * Event)))
  : list (list (Z * Event)) :=
  alter (drop 1) i cursors.

Definition remaining (cursors : list (list (Z * Event))) : nat :=
  length (concat cursors).

(** Modelled from the spec: the k-way merge, one chosen event per step.
    [fuel] bounds the number of steps; [remaining cursors] is enough. *)
Fixpoint merge_order (fuel : nat) (cursors : list (list (Z * Event)))
  : list (Z * Event) :=
  match fuel with
  | O => []
  | S fuel' =>
      match next_event cursors with
      | None => []
      | Some (i, pe) => pe :: merge_order fuel' (advance_cursor i cursors)
      end
  end.

(** Modelled from the spec: emission against the shared simulated clock.
    When the chosen event lies ahead of the clock, one
    [AdvanceProcessingTime] with the difference goes out before it. *)
Fixpoint emit (clock : Z) (chosen : list (Z * Event)) : list Event :=
  match chosen with
  | [] => []
  | (p, e) :: rest =>
      if clock <? p
      then AdvanceProcessingTime (p - clock) :: e :: emit p rest
      else e :: emit clock rest
  end.

(** The events the reader picks, in order, with their positions. *)
Definition chosen_events (logs : list (list Event)) : list (Z * Event) :=
  let cursors := processing_time_positions 0 <$> logs in
  merge_order (remaining cursors) cursors.

(** Modelled from the spec: [StreamingCache.Reader.read]; the shared clock
    starts at 0. *)
Definition Reader_read (logs : list (list Event)) : list Event :=
  emit 0 (chosen_events logs).

Definition read_multiple (cache : gmap (list string) (list Event))
    (groups : list (list string)) : list Event :=
  Reader_read (open_cursor cache <$> groups).

(** Modelled from the spec: [read] is [read_multiple] over one group. *)
Definition read (cache : gmap (list string) (list Event))
    (labels : list string) : list Event :=
  read_multiple cache [labels].




(** The data-model invariant of a log: its clock deltas do not run
    backwards. *)
Definition log_wf (log : list Event) : Prop :=
  Forall (λ e, match e with
               | AdvanceProcessingTime d => 0 ≤ d
               | _ => True
               end) log.

#[global] Instance log_wf_dec log : Decision (log_wf log).
Proof. apply Forall_dec; intros []; apply _. Defined.

End StreamingCache.

(* ===================================================================== *)
(** * The scenarios of [streaming_cache_test.py] *)
(* ===================================================================== *)

Module StreamingCacheTest.
Import TestStreamPayload StreamingCache.

(** Modelled from the spec: [testing.test_cache_manager.FileRecordsBuilder]
    is not among the sources.  It builds the log of one tag from records
    given with absolute processing times in seconds; a log keeps the tag's
    own clock deltas, so a record at a later processing time is preceded by
    the [AdvanceProcessingTime] from the previous one. *)
Record FileRecordsBuilder : Type := mkBuilder {
  _tag : string;
  _records : list Event;
  _processing_time_secs : Z
}.

Definition new_builder (tag : string) : FileRecordsBuilder :=
  mkBuilder tag [] 0.

Definition at_processing_time (processing_time_secs : Z) (e : Event)
    (b : FileRecordsBuilder) : FileRecordsBuilder :=
  mkBuilder (_tag b)
    (_records b
     ++ (if decide (processing_time_secs = _processing_time_secs b) then []
         else [AdvanceProcessingTime
                 (micros_of_secs
                    (processing_time_secs - _processing_time_secs b))])
     ++ [e])
    processing_time_secs.

Definition add_element (encoded : string)
    (event_time_secs processing_time_secs : Z) (b : FileRecordsBuilder) :=
  at_processing_time processing_time_secs
    (AddElements
       [mkTimestampedElement encoded (micros_of_secs event_time_secs)]
       (_tag b)) b.

Definition advance_watermark (watermark_secs processing_time_secs : Z)
    (b : FileRecordsBuilder) :=
  at_processing_time processing_time_secs
    (AdvanceWatermark (micros_of_secs watermark_secs) (_tag b)) b.

Definition build (b : FileRecordsBuilder) : list Event := _records b.

Section WithCoder.
Variable encode : string → string.

Definition CACHED_LETTERS : string := "letters".
Definition CACHED_NUMBERS : string := "numbers".
Definition CACHED_LATE : string := "late".

(** [test_multiple_readers]: the three logs. *)
Definition letters : FileRecordsBuilder :=
  add_element (encode "b") 10 11
    (advance_watermark 10 11
       (add_element (encode "a") 0 1
          (advance_watermark 0 1 (new_builder CACHED_LETTERS)))).

Definition numbers : FileRecordsBuilder :=
  add_element (encode "2") 0 4
    (add_element (encode "2") 0 3
       (add_element (encode "1") 0 2 (new_builder CACHED_NUMBERS))).

Definition late : FileRecordsBuilder :=
  add_element (encode "late") 0 101 (new_builder CACHED_LATE).

Definition multiple_readers_cache : gmap (list string) (list Event) :=
  write (build late) [CACHED_LATE]
    (write (build numbers) [CACHED_NUMBERS]
       (write (build letters) [CACHED_LETTERS] ∅)).

Definition multiple_readers_groups : list (list string) :=
  [[CACHED_LETTERS]; [CACHED_NUMBERS]; [CACHED_LATE]].

Definition element (value : string) (micros : Z) (tag : string) : Event :=
  AddElements [mkTimestampedElement (encode value) micros] tag.

(** [test_multiple_readers]: the expected events, in microseconds. *)
Definition multiple_readers_expected : list Event :=
  [ AdvanceProcessingTime (1 * 10 ^ 6);
    AdvanceWatermark 0 CACHED_LETTERS;
    element "a" 0 CACHED_LETTERS;
    AdvanceProcessingTime (1 * 10 ^ 6);
    element "1" 0 CACHED_NUMBERS;
    AdvanceProcessingTime (1 * 10 ^ 6);
    element "2" 0 CACHED_NUMBERS;
    AdvanceProcessingTime (1 * 10 ^ 6);
    element "2" 0 CACHED_NUMBERS;
    AdvanceProcessingTime (7 * 10 ^ 6);
    AdvanceWatermark (10 * 10 ^ 6) CACHED_LETTERS;
    element "b" (10 * 10 ^ 6) CACHED_LETTERS;
    AdvanceProcessingTime (90 * 10 ^ 6);
    element "late" 0 CACHED_LATE ].

End WithCoder.
End StreamingCacheTest.

(* ===================================================================== *)
(** * The interactive environment and the source-signature tracker *)
(* ===================================================================== *)

Module BackgroundCaching.
Import TestStreamPayload Job.

(** A user pipeline: the identity under which the environment tracks it,
    and its unbounded sources, each given by
    [str(transform.to_runner_api(context))], the only thing the tracker
    looks at.  (Modelled from the spec: the source inspector
    [pipeline_instrument.unbounded_sources] is not among the sources.) *)
Record Pipeline : Type := mkPipeline {
  pipeline_id : nat;
  unbounded_sources : list string
}.

(** The two [_LOGGER.info] messages of [is_source_to_cache_changed]. *)
Inductive LogMessage : Type :=
| UnboundedSourcesDetected
    (* "... has detected you have unbounded sources in your pipeline ..." *)
| NewStreamingSourceAdded.
    (* "... has detected a new streaming source was added ..." *)

(** Modelled from the spec: [interactive_environment.py] is not among the
    sources.  The environment is the registry of the cache manager (whether
    it has been wrapped into a [StreamingCache], and the cached data), the
    background caching job and the recorded source signature of each
    pipeline; [_log] collects what the module logs. *)
Record InteractiveEnvironment : Type := mkEnv {
  _cache_manager_is_streaming : bool;
  _cached_data : gmap (list string) (list Event);
  _background_caching_jobs : gmap nat BackgroundCachingJob;
  _cached_source_signatures : gmap nat (gset string);
  _log : list LogMessage
}.

Definition get_background_caching_job (env : InteractiveEnvironment)
    (user_pipeline : Pipeline) : option BackgroundCachingJob :=
  _background_caching_jobs env !! pipeline_id user_pipeline.

(** The empty set for a pipeline seen for the first time. *)
Definition get_cached_source_signature (env : InteractiveEnvironment)
    (user_pipeline : Pipeline) : gset string :=
  default ∅ (_cached_source_signatures env !! pipeline_id user_pipeline).

Definition set_cached_source_signature (user_pipeline : Pipeline)
    (signature : gset string) (env : InteractiveEnvironment)
  : InteractiveEnvironment :=
  mkEnv (_cache_manager_is_streaming env) (_cached_data env)
        (_background_caching_jobs env)
        (<[pipeline_id user_pipeline := signature]>
           (_cached_source_signatures env))
        (_log env).

(** Modelled from the spec: [cleanup] clears all cached data belonging to
    the environment. *)
Definition cleanup (env : InteractiveEnvironment) : InteractiveEnvironment :=
  mkEnv (_cache_manager_is_streaming env) ∅
        (_background_caching_jobs env) (_cached_source_signatures env)
        (_log env).

Definition log_info (msg : LogMessage) (env : InteractiveEnvironment)
  : InteractiveEnvironment :=
  mkEnv (_cache_manager_is_streaming env) (_cached_data env)
        (_background_caching_jobs env) (_cached_source_signatures env)
        (_log env ++ [msg]).

(** [set_cache_manager(StreamingCache(cache_manager()._cache_dir, ...))]:
    the same cache directory under a streaming cache manager. *)
Definition wrap_cache_manager (env : InteractiveEnvironment)
  : InteractiveEnvironment :=
  mkEnv true (_cached_data env)
        (_background_caching_jobs env) (_cached_source_signatures env)
        (_log env).

Definition extract_source_to_cache_signature (user_pipeline : Pipeline)
  : gset string :=
  list_to_set (unbounded_sources user_pipeline).

Definition is_source_to_cache_changed (user_pipeline : Pipeline)
    (update_cached_source_signature : bool) (env : InteractiveEnvironment)
  : bool * InteractiveEnvironment :=
  let recorded_signature := get_cached_source_signature env user_pipeline in
  let current_signature := extract_source_to_cache_signature user_pipeline in
  let is_changed :=
    negb (bool_decide (current_signature ⊆ recorded_signature)) in
  if is_changed && update_cached_source_signature
  then
    let env :=
      if decide (recorded_signature = ∅)
      then log_info UnboundedSourcesDetected env
      else log_info NewStreamingSourceAdded env in
    (is_changed,
     set_cached_source_signature user_pipeline current_signature
       (cleanup env))
  else (is_changed, env).

(** Modelled from the spec: [pipeline_instrument.has_unbounded_sources]. *)
Definition has_unbounded_sources (user_pipeline : Pipeline) : bool :=
  bool_decide (unbounded_sources user_pipeline ≠ []).

Definition has_source_to_cache (user_pipeline : Pipeline)
    (env : InteractiveEnvironment) : bool * InteractiveEnvironment :=
  let has_cache := has_unbounded_sources user_pipeline in
  if has_cache && negb (_cache_manager_is_streaming env)
  then (has_cache, wrap_cache_manager env)
  else (has_cache, env).

Definition is_background_caching_job_needed (user_pipeline : Pipeline)
    (env : InteractiveEnvironment) : bool * InteractiveEnvironment :=
  let job := get_background_caching_job env user_pipeline in
  let '(need_cache, env) := has_source_to_cache user_pipeline env in
  let '(cache_changed, env) :=
    is_source_to_cache_changed user_pipeline true env in
  (need_cache
   && (match job with
       | None => true
       | Some job => negb (is_done job || is_running job)
       end
       || cache_changed),
   env).

End BackgroundCaching.

(* ===================================================================== *)
(** * Materializing cached elements: [_to_element_list] *)
(* ===================================================================== *)

Module PCollVisualization.
Import TestStreamPayload.

Section Materialize.
(** [WindowedValue] objects, and every other object a cache can yield. *)
Context {WindowedValue Other : Type}.

Inductive PyObject : Type :=
| PyWindowedValue (w : WindowedValue)
| PyOther (o : Other).

(** What the cursor of a cache entry yields: events from a streaming
    cache, plain objects otherwise. *)
Inductive Item : Type :=
| EventItem (e : Event)
| ObjectItem (o : PyObject).

(** The cache manager as [_to_element_list] uses it; [None] stands for a
    call that raises. *)
Record CacheManager : Type := mkCacheManager {
  cm_exists : list string → option bool;
  cm_read : list string → option (list Item);
  cm_load_pcoder : list string → option (string → option PyObject)
}.

(** The constructor call that turns the keyword arguments [val] into a
    [WindowedValue]; [None] when it raises. *)
Variable WindowedValue_kwargs : Other → option WindowedValue.

(** [val] itself if it is a [WindowedValue], else the constructor call. *)
Definition as_windowed_value (val : PyObject) : option WindowedValue :=
  match val with
  | PyWindowedValue w => Some w
  | PyOther o => WindowedValue_kwargs o
  end.

(** The body of [for tv in el.element_event.elements] for one [tv]. *)
Definition decode_element (cache : CacheManager) (cache_key : string)
    (tv : TimestampedElement) : option WindowedValue :=
  coder ← cm_load_pcoder cache ["full"; cache_key];
  val ← coder (encoded_element tv);
  as_windowed_value val.

(** The [for] loop over the elements of one event: what it appends to
    [output] before it finishes or an exception leaves it. *)
Fixpoint decode_elements (cache : CacheManager) (cache_key : string)
    (elements : list TimestampedElement) : list WindowedValue :=
  match elements with
  | [] => []
  | tv :: elements' =>
      match decode_element cache cache_key tv with
      | Some val => val :: decode_elements cache cache_key elements'
      | None => []
      end
  end.

(** The [while True] loop over the items of the cursor. *)
Fixpoint materialize (cache : CacheManager) (cache_key : string)
    (pcoll_list : list Item) : list WindowedValue :=
  match pcoll_list with
  | [] => []
  | EventItem (AdvanceWatermark _ _) :: rest
  | EventItem (AdvanceProcessingTime _) :: rest =>
      materialize cache cache_key rest
  | EventItem (AddElements elements _) :: rest =>
      decode_elements cache cache_key elements
      ++ materialize cache cache_key rest
  | ObjectItem el :: rest =>
      match as_windowed_value el with
      | Some el => el :: materialize cache cache_key rest
      | None => materialize cache cache_key rest
      end
  end.

(** What one event appends to [output]. *)
Definition payloads_of (cache : CacheManager) (cache_key : string)
    (e : Event) : list WindowedValue :=
  match e with
  | AddElements elements _ => decode_elements cache cache_key elements
  | AdvanceWatermark _ _ | AdvanceProcessingTime _ => []
  end.

Definition _to_element_list (cache : CacheManager) (cache_key : string)
  : list WindowedValue :=
  let pcoll_list :=
    match cm_exists cache ["full"; cache_key] with
    | Some true => default [] (cm_read cache ["full"; cache_key])
    | Some false => []
    | None => []
    end in
  materialize cache cache_key pcoll_list.

(** The streaming cache as a cache manager: [exists] and [read] of the
    replay cache, with [coder] loaded for every entry. *)
Definition streaming_cache_manager
    (cache : gmap (list string) (list Event))
    (coder : string → option PyObject) : CacheManager :=
  mkCacheManager
    (λ labels, Some (StreamingCache.exists_ cache labels))
    (λ labels, Some (EventItem <$> StreamingCache.read cache labels))
    (λ _, Some coder).

(** The reading of the error-handling sentence in which a failure costs
    only the offending element: every element of every [AddElements] event
    that decodes is returned. *)
Fixpoint skipping_only_offending_elements (cache : CacheManager)
    (cache_key : string) (pcoll_list : list Item) : list WindowedValue :=
  match pcoll_list with
  | [] => []
  | EventItem (AddElements elements _) :: rest =>
      omap (decode_element cache cache_key) elements
      ++ skipping_only_offending_elements cache cache_key rest
  | EventItem _ :: rest =>
      skipping_only_offending_elements cache cache_key rest
  | ObjectItem el :: rest =>
      match as_windowed_value el with
      | Some el => el :: skipping_only_offending_elements cache cache_key rest
      | None => skipping_only_offending_elements cache cache_key rest
      end
  end.

End Materialize.

Arguments PyObject : clear implicits.
Arguments Item : clear implicits.
Arguments CacheManager : clear implicits.

(** A cache whose coder fails on the payload "bad" and decodes every other
    payload to itself, holding one event with three elements. *)
Definition failing_coder (encoded : string)
  : option (PyObject string Empty_set) :=
  if decide (encoded = "bad") then None else Some (PyWindowedValue encoded).

Definition one_event_cache : CacheManager string Empty_set :=
  mkCacheManager
    (λ _, Some true)
    (λ _, Some [EventItem
                  (AddElements [ mkTimestampedElement "a" 0;
                                 mkTimestampedElement "bad" 0;
                                 mkTimestampedElement "c" 0 ] "t")])
    (λ _, Some failing_coder).

Definition no_kwargs (o : Empty_set) : option string := None.

(** A cache entry holding a clock advance, a watermark and one element. *)
Definition watermark_clock_element_cache : CacheManager string Empty_set :=
  mkCacheManager
    (λ _, Some true)
    (λ _, Some (EventItem
                  <$> [ AdvanceProcessingTime 5000000;
                        AdvanceWatermark 0 "t";
                        AddElements [mkTimestampedElement "a" 0] "t" ]))
    (λ _, Some failing_coder).

End PCollVisualization.

(* ===================================================================== *)
(** * Starting, cancelling and replacing the background caching job *)
(* ===================================================================== *)

Module Orchestration.
Import PipelineState Job BackgroundCaching.

#[global] Instance effect_eq_dec : EqDecision Effect.
Proof. solve_decision. Defined.

(** The operations of the controller itself, as opposed to a move of the
    engine. *)
Definition is_controller_op (op : Op) : bool :=
  match op with
  | EngineMoves _ => false
  | _ => true
  end.

(** How often a trace asks the engine to cancel. *)
Definition engine_requests (trace : list Effect) : nat :=
  length (filter (λ e, e = PipelineResultCancel) trace).

(** What the tracked job alone says about the need for a new one: the
    part [not job or not (job.is_done() or job.is_running())] of the
    decision. *)
Definition job_is_missing_or_ended (job : option BackgroundCachingJob)
  : bool :=
  match job with
  | None => true
  | Some job => negb (is_done job || is_running job)
  end.

Definition set_background_caching_job (user_pipeline : Pipeline)
    (job : BackgroundCachingJob) (env : InteractiveEnvironment)
  : InteractiveEnvironment :=
  mkEnv (_cache_manager_is_streaming env) (_cached_data env)
        (<[pipeline_id user_pipeline := job]> (_background_caching_jobs env))
        (_cached_source_signatures env)
        (_log env).

(** The environment together with the pipelines for which it holds a test
    stream service controller ([get_test_stream_service_controller] answers
    a controller for exactly these). *)
Record Session : Type := mkSession {
  _env : InteractiveEnvironment;
  _test_stream_service_controllers : gset nat
}.

(** What the functions below ask of their collaborators, in order. *)
Inductive Action : Type :=
| OnJob (pipeline : nat) (e : Effect)
    (* a call made by the tracked job's cancel() *)
| StopTestStreamService (pipeline : nat)
    (* evict_test_stream_service_controller(user_pipeline).stop() *)
| RunBackgroundCachingPipeline (pipeline : nat).
    (* Pipeline.from_runner_api(...).run() *)

Record Attempt : Type := mkAttempt {
  session_after : Session;
  actions : list Action;
  attempt_completion : Completion unit
}.

(** The tracked job is an object the environment holds: what [cancel()]
    does to it is seen by the next lookup. *)
Definition attempt_to_cancel_background_caching_job (reply : CancelReply)
    (user_pipeline : Pipeline) (s : Session) : Attempt :=
  match get_background_caching_job (_env s) user_pipeline with
  | Some job =>
      let r := cancel reply job in
      mkAttempt
        (mkSession
           (set_background_caching_job user_pipeline (job_after r) (_env s))
           (_test_stream_service_controllers s))
        (OnJob (pipeline_id user_pipeline) <$> effects r)
        (completion r)
  | None => mkAttempt s [] (Returns tt)
  end.

Definition is_a_test_stream_service_running (user_pipeline : Pipeline)
    (s : Session) : bool :=
  bool_decide
    (pipeline_id user_pipeline ∈ _test_stream_service_controllers s).

Definition attempt_to_stop_test_stream_service (user_pipeline : Pipeline)
    (s : Session) : Attempt :=
  if is_a_test_stream_service_running user_pipeline s
  then mkAttempt
         (mkSession (_env s)
            (_test_stream_service_controllers s
             ∖ {[pipeline_id user_pipeline]}))
         [StopTestStreamService (pipeline_id user_pipeline)]
         (Returns tt)
  else mkAttempt s [] (Returns tt).

(** [reply] is what the engine answers if the previous job is asked to
    cancel; [started] is the state of the pipeline result that [run()]
    returns for the new background caching pipeline (building and running
    it are taken to succeed). *)
Definition attempt_to_run_background_caching_job (reply : CancelReply)
    (started : PipelineState.t) (user_pipeline : Pipeline) (s : Session)
  : Attempt :=
  let '(needed, env) :=
    is_background_caching_job_needed user_pipeline (_env s) in
  let s := mkSession env (_test_stream_service_controllers s) in
  if needed
  then
    let cancelled :=
      attempt_to_cancel_background_caching_job reply user_pipeline s in
    match attempt_completion cancelled with
    | Raises what => cancelled
    | Returns _ =>
        let stopped :=
          attempt_to_stop_test_stream_service user_pipeline
            (session_after cancelled) in
        mkAttempt
          (mkSession
             (set_background_caching_job user_pipeline
                (__init__ started true) (_env (session_after stopped)))
             (_test_stream_service_controllers (session_after stopped)))
          (actions cancelled ++ actions stopped
           ++ [RunBackgroundCachingPipeline (pipeline_id user_pipeline)])
          (Returns tt)
    end
  else mkAttempt s [] (Returns tt).

End Orchestration.

(* ===================================================================== *)
(** * Formatting windows for the data table: [windows_formatter] *)
(* ===================================================================== *)

Module WindowsFormatter.

(** The windows [windows_formatter] tells apart: a [GlobalWindow], an
    [IntervalWindow] with its bounds in microseconds, and any other
    window. *)
Inductive Window : Type :=
| GlobalWindow
| IntervalWindow (start_micros end_micros : Z)
| OtherWindow.

(** [hours], [minutes], [seconds] and [micros] of a duration given in
    microseconds; [//] and [%] round towards minus infinity, as [/] and
    [mod] on [Z] do. *)
Definition duration_parts (duration : Z) : Z * Z * Z * Z :=
  let duration_secs := duration / 1000000 in
  let hours := duration_secs / 3600 in
  let remainder := duration_secs mod 3600 in
  let minutes := remainder / 60 in
  let seconds := remainder mod 60 in
  let micros := (duration - duration_secs * 1000000) mod 1000000 in
  (hours, minutes, seconds, micros).

Fixpoint zeros (n : nat) : string :=
  match n with
  | O => ""
  | S n' => "0" +:+ zeros n'
  end.

(** ['{:06}'.format(micros)] for the non-negative [micros] above. *)
Definition zero_padded_6 (micros : Z) : string :=
  let digits := pretty micros in
  zeros (6 - String.length digits) +:+ digits.

(** The duration string, built to be as short as possible. *)
Definition duration_text (duration : Z) : string :=
  let '(hours, minutes, seconds, micros) := duration_parts duration in
  (if decide (hours ≠ 0) then pretty hours +:+ "h " else "")
  +:+ (if decide (minutes ≠ 0 ∨ (hours ≠ 0 ∧ seconds ≠ 0))
       then pretty minutes +:+ "m " else "")
  +:+ (if decide (seconds ≠ 0)
       then if decide (micros ≠ 0)
            then pretty seconds +:+ "." +:+ zero_padded_6 micros +:+ "s"
            else pretty seconds +:+ "s"
       else "").

Section WithFormatters.
(** [str(w)] of a [GlobalWindow], and [event_time_formatter], which
    renders a timestamp in the display time zone. *)
Variable str_of_global_window : string.
Variable event_time_formatter : Z → string.

(** What one window appends to [result], if anything. *)
Definition window_text (w : Window) : option string :=
  match w with
  | GlobalWindow => Some str_of_global_window
  | IntervalWindow start_micros end_micros =>
      Some (event_time_formatter start_micros +:+ " ("
            +:+ duration_text (end_micros - start_micros) +:+ ")")
  | OtherWindow => None
  end.

Definition windows_formatter (windows : list Window) : string :=
  String.concat "," (omap window_text windows).

End WithFormatters.
End WindowsFormatter.

(* ===================================================================== *)
(** * Reading back: recorded events and further scenarios *)
(* ===================================================================== *)

Module ReadBack.
Import TestStreamPayload StreamingCache StreamingCacheTest PCollVisualization.

(** The events a log records for its tag: elements and watermarks, as
    opposed to advances of the clock. *)
Definition is_recorded_event (e : Event) : Prop :=
  is_processing_time_event e = false.

#[global] Instance is_recorded_event_dec e : Decision (is_recorded_event e).
Proof. unfold is_recorded_event. apply _. Defined.

(** [test_single_reader]: the log. *)
Definition single_reader_log (encode : string → string) : list Event :=
  build
    (add_element (encode "2") 2 2
       (add_element (encode "1") 1 1
          (add_element (encode "0") 0 0 (new_builder "arbitrary_key")))).

(** [test_single_reader]: the expected events. *)
Definition single_reader_expected (encode : string → string) : list Event :=
  [ element encode "0" 0 "arbitrary_key";
    AdvanceProcessingTime (1 * 10 ^ 6);
    element encode "1" (1 * 10 ^ 6) "arbitrary_key";
    AdvanceProcessingTime (1 * 10 ^ 6);
    element encode "2" (2 * 10 ^ 6) "arbitrary_key" ].

(** A cache entry of a cache that is not a streaming one: its cursor
    yields the windowed values themselves. *)
Definition plain_cache (values : list string)
  : CacheManager string Empty_set :=
  mkCacheManager
    (λ _, Some true)
    (λ _, Some ((λ w, ObjectItem (PyWindowedValue w)) <$> values))
    (λ _, None).

End ReadBack.

(* ===================================================================== *)
(** * Properties of the clock-merging reader *)
(* ===================================================================== *)

Section ReaderProperties.
Import TestStreamPayload StreamingCache.

Lemma positions_no_clock_event t log :
  Forall (λ pe, is_processing_time_event pe.2 = false)
         (processing_time_positions t log).
Proof.
  revert t; induction log as [|e log IH]; intros t; simpl; [constructor|].
  destruct e; try (constructor; [reflexivity|]); apply IH.
Qed.



Lemma next_event_None cursors :
  next_event cursors = None → Forall (λ c, c = []) cursors.
Proof.
  induction cursors as [|c cursors IH]; simpl; [constructor|].
  destruct c as [|[p e] c].
  - destruct (next_event cursors); simpl; [discriminate|].
    intros _; constructor; auto.
  - destruct (next_event cursors) as [[i [q e']]|]; simpl;
      [destruct (q <? p)|]; discriminate.
Qed.

Lemma next_event_Some cursors i p e :
  next_event cursors = Some (i, (p, e)) →
  (∃ rest, cursors !! i = Some ((p, e) :: rest)) ∧
  ∀ j q e' c, cursors !! j = Some ((q, e') :: c) →
    p ≤ q ∧ ((j < i)%nat → p < q).
Proof.
  revert i p e; induction cursors as [|c cursors IH]; intros i p e; simpl;
    [discriminate|].
  destruct (next_event cursors) as [[k [q0 e0]]|] eqn:Hnext; simpl.
  - destruct (IH _ _ _ eq_refl) as [[rest Hrest] Hmin].
    destruct c as [|[p1 e1] c].
    + intros [= <- <- <-]; split; [eauto|].
      intros [|j] q e' c'; simpl; [discriminate|].
      intros Hj; destruct (Hmin _ _ _ _ Hj); split; [lia|]; intros; lia.
    + destruct (q0 <? p1) eqn:Hlt.
      * apply Z.ltb_lt in Hlt. intros [= <- <- <-]; split; [eauto|].
        intros [|j] q e' c'; simpl.
        -- intros [= -> -> ->]; split; [lia|]; intros; lia.
        -- intros Hj; destruct (Hmin _ _ _ _ Hj); split; [lia|]; intros; lia.
      * apply Z.ltb_ge in Hlt. intros [= <- <- <-]; split; [simpl; eauto|].
        intros [|j] q e' c'; simpl.
        -- intros [= -> -> ->]; split; [lia|]; intros; lia.
        -- intros Hj; destruct (Hmin _ _ _ _ Hj); split; [lia|]; intros; lia.
  - pose proof (next_event_None _ Hnext) as Hnil.
    destruct c as [|[p1 e1] c]; [discriminate|].
    intros [= <- <- <-]; split; [simpl; eauto|].
    intros [|j] q e' c'; simpl.
    + intros [= -> -> ->]; split; [lia|]; intros; lia.
    + intros Hj. rewrite Forall_lookup in Hnil.
      specialize (Hnil _ _ Hj); discriminate.
Qed.

Lemma advance_cursor_insert cursors i x rest :
  cursors !! i = Some (x :: rest) →
  advance_cursor i cursors = <[i := rest]> cursors.
Proof.
  unfold advance_cursor; revert i;
    induction cursors as [|c cursors IH]; intros [|i]; simpl; try discriminate.
  - intros [= ->]; reflexivity.
  - intros Hi; f_equal; apply IH, Hi.
Qed.

Lemma concat_insert_cursor (cursors : list (list (Z * Event))) i x rest :
  cursors !! i = Some (x :: rest) →
  concat cursors ≡ₚ x :: concat (<[i := rest]> cursors).
Proof.
  intros Hi. rewrite insert_take_drop by (eapply lookup_lt_Some, Hi).
  rewrite <- (take_drop_middle _ _ _ Hi) at 1.
  rewrite !concat_app; simpl.
  rewrite <- Permutation_middle; reflexivity.
Qed.

Lemma remaining_insert_cursor cursors i x rest :
  cursors !! i = Some (x :: rest) →
  remaining cursors = S (remaining (<[i := rest]> cursors)).
Proof.
  intros Hi; unfold remaining.
  rewrite (Permutation_length (concat_insert_cursor _ _ _ _ Hi)); reflexivity.
Qed.













(** Two clock advances of one log before an event go out as one. *)
Example clock_advances_coalesce :
  Reader_read [[AdvanceProcessingTime 3; AdvanceProcessingTime 4;
                AdvanceWatermark 0 "t"]]
  = [AdvanceProcessingTime 7; AdvanceWatermark 0 "t"].
Proof. reflexivity. Qed.

(** Two events at the same position go out in the order of their groups. *)
Example ties_follow_group_order :
  Reader_read [[AdvanceProcessingTime 5; AdvanceWatermark 1 "second"];
               [AdvanceProcessingTime 2; AdvanceProcessingTime 3;
                AdvanceWatermark 2 "first"]]
  = [AdvanceProcessingTime 5; AdvanceWatermark 1 "second";
     AdvanceWatermark 2 "first"].
Proof. reflexivity. Qed.

(** The reader reproduces the expected events of
    [test_multiple_readers], whatever the coder. *)
Example test_multiple_readers encode :
  read_multiple (StreamingCacheTest.multiple_readers_cache encode)
                StreamingCacheTest.multiple_readers_groups
  = StreamingCacheTest.multiple_readers_expected encode.
Proof. vm_compute. reflexivity. Qed.


End ReaderProperties.

(* ===================================================================== *)
(** * Properties of the capture job controller *)
(* ===================================================================== *)

Section JobProperties.
Import PipelineState Job.


Lemma is_not_done_when_unattributed (self : BackgroundCachingJob) :
  _timer_triggered self = false →
  _condition_checker_triggered self = false →
  _pipeline_result self ≠ DONE →
  is_done self = false.
Proof.
  intros Ht Hc Hstate. unfold is_done. rewrite Ht, Hc; simpl.
  rewrite orb_false_r. apply bool_decide_eq_false, Hstate.
Qed.

(** C3.  [is_done()] is true exactly when the job's state is DONE, or the
    state is CANCELLED or CANCELLING and the timer-triggered or the
    size-limit-triggered flag is set. *)
Theorem is_done_exactly (self : BackgroundCachingJob) :
  is_done self = true ↔
  _pipeline_result self = DONE
  ∨ ((_pipeline_result self = CANCELLED
      ∨ _pipeline_result self = CANCELLING)
     ∧ (_timer_triggered self = true
        ∨ _condition_checker_triggered self = true)).
Proof.
  unfold is_done.
  rewrite orb_true_iff, andb_true_iff, !orb_true_iff, !bool_decide_eq_true.
  tauto.
Qed.

Lemma cancel_keeps_checker_flag reply j :
  _condition_checker_triggered (job_after (cancel reply j))
  = _condition_checker_triggered j.
Proof.
  destruct j as [s alive t c], reply, alive; destruct (is_terminal s) eqn:Hs;
    unfold cancel, _cancel, try_pipeline_result_cancel, mbind, M_bind;
    simpl; rewrite ?Hs; reflexivity.
Qed.

Lemma cancel_resets_timer_flag reply j :
  completion (cancel reply j) = Returns tt →
  _timer_triggered (job_after (cancel reply j)) = false.
Proof.
  destruct j as [s alive t c], reply, alive; destruct (is_terminal s) eqn:Hs;
    unfold cancel, _cancel, try_pipeline_result_cancel, mbind, M_bind;
    simpl; rewrite ?Hs; simpl; auto; discriminate.
Qed.







(** C8, as stated, fails: on a job whose state is already DONE, [cancel()]
    does not ask the engine to cancel. *)
Lemma cancel_of_done_job_skips_engine :
  ¬ (PipelineResultCancel
       ∈ effects (cancel (CancelsTo CANCELLED) (__init__ DONE true))).
Proof.
  vm_compute. intros H.
  repeat (inversion H as [|? ? ? H']; clear H; rename H' into H).
Qed.

(** C8, amended.  [cancel()] asks the engine to cancel exactly when the
    job's state is not terminal, and then once.  A [NotImplementedError]
    from the engine is swallowed: the call still returns, the job's state is
    as before, and nothing is logged.  Unless the engine raises something
    else, the call returns with the timer-triggered flag false and the timer
    not alive, having cancelled the timer exactly when it was alive; the
    size-limit flag is as before. *)
Theorem cancel_requests_engine_unless_terminal
    (self : BackgroundCachingJob) (reply : CancelReply) :
  let r := cancel reply self in
  effects r
  = (if is_terminal (_pipeline_result self) then []
     else [PipelineResultCancel])
    ++ match completion r with
       | Returns _ => if _timer_alive self then [TimerCancel] else []
       | Raises _ => []
       end
  ∧ (completion r = Returns tt ↔
     is_terminal (_pipeline_result self) = true
     ∨ reply = NotImplementedError
     ∨ ∃ s, reply = CancelsTo s)
  ∧ match completion r with
    | Returns _ =>
        _timer_triggered (job_after r) = false
        ∧ _timer_alive (job_after r) = false
        ∧ _condition_checker_triggered (job_after r)
          = _condition_checker_triggered self
    | Raises _ => True
    end
  ∧ match reply with
    | NotImplementedError =>
        completion r = Returns tt
        ∧ _pipeline_result (job_after r) = _pipeline_result self
    | _ => True
    end.
Proof.
  destruct self as [s alive t c], reply as [s'| |what], alive;
    destruct (is_terminal s) eqn:Hs;
    unfold cancel, _cancel, try_pipeline_result_cancel, mbind, M_bind;
    simpl; rewrite ?Hs; simpl;
    repeat split; auto; try discriminate; eauto;
    intros H; try discriminate H;
    destruct H as [H|[H|[? H]]]; discriminate.
Qed.

End JobProperties.

(* ===================================================================== *)
(** * Properties of the source-signature tracker *)
(* ===================================================================== *)

Section TrackerProperties.
Import PipelineState Job BackgroundCaching.

(** C5.  [is_source_to_cache_changed] returns true if and only if the
    newly extracted signature is not a subset of the recorded one, the
    recorded one being the empty set for a pipeline seen for the first
    time; this holds for the mutating and the non-mutating variant. *)
Theorem source_changed_iff_not_subset
    (env : InteractiveEnvironment) (user_pipeline : Pipeline)
    (update_cached_source_signature : bool) :
  (is_source_to_cache_changed user_pipeline update_cached_source_signature
     env).1 = true
  ↔ ¬ (extract_source_to_cache_signature user_pipeline
       ⊆ default ∅ (_cached_source_signatures env
                      !! pipeline_id user_pipeline)).
Proof.
  unfold is_source_to_cache_changed, get_cached_source_signature.
  destruct (_ && _); simpl;
    rewrite negb_true_iff, bool_decide_eq_false; reflexivity.
Qed.

Lemma source_changed_fst env user_pipeline update :
  (is_source_to_cache_changed user_pipeline update env).1
  = negb (bool_decide (extract_source_to_cache_signature user_pipeline
                       ⊆ get_cached_source_signature env user_pipeline)).
Proof.
  unfold is_source_to_cache_changed. destruct (_ && _); reflexivity.
Qed.

(** The subset scenario of the spec: with {S1} recorded, a pipeline whose
    source was removed is unchanged, one with S1 and S2 is changed. *)
Example signature_subset_scenario :
  let recorded :=
    (is_source_to_cache_changed (mkPipeline 0 ["S1"]) true
       (mkEnv true ∅ ∅ ∅ [])).2 in
  get_cached_source_signature recorded (mkPipeline 0 []) = {["S1"]}
  ∧ (is_source_to_cache_changed (mkPipeline 0 []) true recorded).1 = false
  ∧ (is_source_to_cache_changed (mkPipeline 0 ["S1"; "S2"]) true recorded).1
    = true.
Proof. vm_compute. auto. Qed.

(** C6.  When the check reports a change and updating is enabled, the
    cached data of the environment is cleared and the new signature is the
    recorded one of this pipeline, the jobs and the other pipelines'
    signatures being as before; in every other case the environment is
    left exactly as it was. *)
Theorem source_changed_effect
    (env : InteractiveEnvironment) (user_pipeline : Pipeline)
    (update_cached_source_signature : bool) :
  let r := is_source_to_cache_changed user_pipeline
             update_cached_source_signature env in
  if r.1 && update_cached_source_signature
  then _cached_data r.2 = ∅
       ∧ get_cached_source_signature r.2 user_pipeline
         = extract_source_to_cache_signature user_pipeline
       ∧ _cached_source_signatures r.2
         = <[pipeline_id user_pipeline :=
               extract_source_to_cache_signature user_pipeline]>
             (_cached_source_signatures env)
       ∧ _background_caching_jobs r.2 = _background_caching_jobs env
       ∧ _cache_manager_is_streaming r.2 = _cache_manager_is_streaming env
  else r.2 = env.
Proof.
  unfold is_source_to_cache_changed.
  destruct (negb _ && update_cached_source_signature) eqn:Hupd; simpl;
    rewrite Hupd; [|reflexivity].
  destruct (decide (get_cached_source_signature env user_pipeline = ∅));
    unfold get_cached_source_signature, set_cached_source_signature; simpl;
    rewrite lookup_insert_eq; auto.
Qed.

(** C7.  [is_background_caching_job_needed] answers true exactly when the
    pipeline has unbounded sources and there is no tracked job, or the
    tracked job is neither done nor running, or the signature check reports
    a change.  The signature check runs on every call, and the environment
    the call leaves behind is the one that check leaves behind; so a second
    call can answer differently from the first. *)
Theorem job_needed_decision :
  (∀ (env : InteractiveEnvironment) (user_pipeline : Pipeline),
     let r := is_background_caching_job_needed user_pipeline env in
     let check :=
       is_source_to_cache_changed user_pipeline true
         (has_source_to_cache user_pipeline env).2 in
     r.1 = has_unbounded_sources user_pipeline
           && (match get_background_caching_job env user_pipeline with
               | None => true
               | Some job => negb (is_done job) && negb (is_running job)
               end
               || check.1)
     ∧ r.2 = check.2
     ∧ check.1
       = (is_source_to_cache_changed user_pipeline true env).1)
  ∧ (∃ (env : InteractiveEnvironment) (user_pipeline : Pipeline),
       let first := is_background_caching_job_needed user_pipeline env in
       let second := is_background_caching_job_needed user_pipeline first.2 in
       first.1 = true ∧ second.1 = false)
  ∧ (∃ (env : InteractiveEnvironment) (user_pipeline : Pipeline),
       get_background_caching_job env user_pipeline = None
       ∧ get_cached_source_signature
           (is_background_caching_job_needed user_pipeline env).2
           user_pipeline
         ≠ get_cached_source_signature env user_pipeline).
Proof.
  split.
  - intros env user_pipeline.
    unfold is_background_caching_job_needed.
    destruct (has_source_to_cache user_pipeline env) as [need env1] eqn:Hhas.
    cbn [fst snd].
    destruct (is_source_to_cache_changed user_pipeline true env1)
      as [changed env2] eqn:Hcheck.
    cbn [fst snd].
    assert (Hneed : need = has_unbounded_sources user_pipeline
                    ∧ get_cached_source_signature env1 user_pipeline
                      = get_cached_source_signature env user_pipeline).
    { revert Hhas. unfold has_source_to_cache.
      destruct (_ && _); intros [= <- <-]; split; reflexivity. }
    destruct Hneed as [-> Hsig].
    split; [|split; [reflexivity|]].
    + destruct (get_background_caching_job env user_pipeline);
        [rewrite negb_orb|]; reflexivity.
    + rewrite (source_changed_fst env _ true), <- Hsig,
        <- (source_changed_fst env1 _ true), Hcheck.
      reflexivity.
  - split.
    + exists (mkEnv true ∅ {[0%nat := mkJob DONE false false false]} ∅ []),
             (mkPipeline 0 ["S1"]).
      vm_compute. auto.
    + exists (mkEnv true ∅ ∅ ∅ []), (mkPipeline 0 ["S1"]).
      split; [reflexivity|].
      intros Heq. assert (Hin : "S1" ∈ (∅ : gset string)).
      { change (∅ : gset string)
          with (get_cached_source_signature (mkEnv true ∅ ∅ ∅ [])
                  (mkPipeline 0 ["S1"])).
        rewrite <- Heq. vm_compute. reflexivity. }
      set_solver.
Qed.

End TrackerProperties.

(* ===================================================================== *)
(** * Properties of [_to_element_list] *)
(* ===================================================================== *)

Section MaterializeProperties.
Import TestStreamPayload PCollVisualization.
Context {WindowedValue Other : Type}.
Variable WindowedValue_kwargs : Other → option WindowedValue.

Abbreviation CacheManager := (CacheManager WindowedValue Other).
Abbreviation Item := (Item WindowedValue Other).

Lemma materialize_app (cache : CacheManager) cache_key (l1 l2 : list Item) :
  materialize WindowedValue_kwargs cache cache_key (l1 ++ l2)
  = materialize WindowedValue_kwargs cache cache_key l1
    ++ materialize WindowedValue_kwargs cache cache_key l2.
Proof.
  induction l1 as [|[[| |]|o] l1 IH]; simpl; rewrite ?IH; try reflexivity.
  - rewrite app_assoc; reflexivity.
  - destruct (as_windowed_value _ o); reflexivity.
Qed.

Lemma decode_elements_stops (cache : CacheManager) cache_key ok bad rest :
  Forall (λ tv,
            is_Some (decode_element WindowedValue_kwargs cache cache_key tv))
         ok →
  decode_element WindowedValue_kwargs cache cache_key bad = None →
  decode_elements WindowedValue_kwargs cache cache_key (ok ++ bad :: rest)
  = omap (decode_element WindowedValue_kwargs cache cache_key) ok.
Proof.
  intros Hok Hbad. induction Hok as [|tv ok [w Hw] _ IH]; simpl.
  - rewrite Hbad; reflexivity.
  - rewrite Hw, IH; reflexivity.
Qed.

Lemma decode_elements_sound (cache : CacheManager) cache_key elements w :
  w ∈ decode_elements WindowedValue_kwargs cache cache_key elements →
  ∃ tv, tv ∈ elements
        ∧ decode_element WindowedValue_kwargs cache cache_key tv = Some w.
Proof.
  induction elements as [|tv elements IH]; simpl; [inversion 1|].
  destruct (decode_element _ cache cache_key tv) as [w'|] eqn:Hd;
    [|inversion 1].
  intros [->|Hin]%elem_of_cons.
  - exists tv; split; [left|exact Hd].
  - destruct (IH Hin) as (tv' & Hin' & Hd').
    exists tv'; split; [right; exact Hin'|exact Hd'].
Qed.

Lemma materialize_events (cache : CacheManager) cache_key events :
  materialize WindowedValue_kwargs cache cache_key (EventItem <$> events)
  = mjoin (payloads_of WindowedValue_kwargs cache cache_key <$> events).
Proof.
  induction events as [|e events IH]; [reflexivity|].
  destruct e; simpl; [f_equal|..]; exact IH.
Qed.

(** C9, amended.  A decode or processing error on an element of an
    [AddElements] event is caught per cached event, not per element: the
    elements of that event decoded before the failing one are kept, the
    failing one and all elements after it in the same event are dropped,
    and the read continues with the next item of the stream; the
    materialization returns a list. *)
Theorem to_element_list_drops_rest_of_failed_event
    (cache : CacheManager) (cache_key : string)
    (before after : list Item) (ok rest : list TimestampedElement)
    (bad : TimestampedElement) (tag : string) :
  cm_exists cache ["full"; cache_key] = Some true →
  cm_read cache ["full"; cache_key]
  = Some (before
          ++ EventItem (AddElements (ok ++ bad :: rest) tag) :: after) →
  Forall (λ tv,
            is_Some (decode_element WindowedValue_kwargs cache cache_key tv))
         ok →
  decode_element WindowedValue_kwargs cache cache_key bad = None →
  _to_element_list WindowedValue_kwargs cache cache_key
  = materialize WindowedValue_kwargs cache cache_key before
    ++ omap (decode_element WindowedValue_kwargs cache cache_key) ok
    ++ materialize WindowedValue_kwargs cache cache_key after.
Proof.
  intros Hex Hread Hok Hbad. unfold _to_element_list.
  rewrite Hex, Hread; simpl.
  rewrite materialize_app; simpl.
  rewrite (decode_elements_stops _ _ _ _ _ Hok Hbad); reflexivity.
Qed.

(** C10.  For a cache entry that reads as a stream of events, the returned
    list is the concatenation, in order, of what the [AddElements] events
    decode to, watermark and processing-time events contributing nothing,
    and every returned value is the decoding of an element of some
    [AddElements] event of the stream; for a key under which the streaming
    cache holds nothing, the returned list is empty. *)
Theorem to_element_list_only_element_payloads :
  (∀ (cache : CacheManager) (cache_key : string) (events : list Event),
     cm_exists cache ["full"; cache_key] = Some true →
     cm_read cache ["full"; cache_key] = Some (EventItem <$> events) →
     _to_element_list WindowedValue_kwargs cache cache_key
     = mjoin (payloads_of WindowedValue_kwargs cache cache_key <$> events)
     ∧ ∀ w, w ∈ _to_element_list WindowedValue_kwargs cache cache_key →
         ∃ elements tag tv,
           AddElements elements tag ∈ events ∧ tv ∈ elements
           ∧ decode_element WindowedValue_kwargs cache cache_key tv = Some w)
  ∧ (∀ (cache : CacheManager) (cache_key : string),
       cm_exists cache ["full"; cache_key] ≠ Some true →
       _to_element_list WindowedValue_kwargs cache cache_key = []).
Proof.
  split.
  - intros cache cache_key events Hex Hread.
    assert (Heq : _to_element_list WindowedValue_kwargs cache cache_key
                  = mjoin (payloads_of WindowedValue_kwargs cache cache_key
                             <$> events)).
    { unfold _to_element_list. rewrite Hex, Hread; simpl.
      apply materialize_events. }
    split; [exact Heq|].
    intros w Hw. rewrite Heq in Hw.
    apply list_elem_of_join in Hw as (l & Hwl & Hl).
    apply list_elem_of_fmap in Hl as (e & -> & He).
    destruct e as [elements tag| |]; simpl in Hwl; try (inversion Hwl; fail).
    destruct (decode_elements_sound _ _ _ _ Hwl) as (tv & Htv & Hd).
    eauto 6.
  - intros cache cache_key Hex. unfold _to_element_list.
    destruct (cm_exists cache ["full"; cache_key]) as [[|]|];
      [congruence|reflexivity..].
Qed.

End MaterializeProperties.

Section MaterializeExamples.
Import TestStreamPayload PCollVisualization.

(** C9, as stated, fails: the element "c" decodes and follows the failing
    one, yet it is not returned; skipping only the failing element would
    return it. *)
Lemma decode_error_drops_later_elements :
  _to_element_list no_kwargs one_event_cache "k"
  ≠ skipping_only_offending_elements no_kwargs one_event_cache "k"
      (default [] (cm_read one_event_cache ["full"; "k"]))
  ∧ _to_element_list no_kwargs one_event_cache "k" = ["a"]
  ∧ decode_element no_kwargs one_event_cache "k" (mkTimestampedElement "c" 0)
    = Some "c"
  ∧ skipping_only_offending_elements no_kwargs one_event_cache "k"
      (default [] (cm_read one_event_cache ["full"; "k"]))
    = ["a"; "c"].
Proof. vm_compute. split; [discriminate|auto]. Qed.

Lemma to_element_list_drops_rest_of_failed_event_witness :
  _to_element_list no_kwargs one_event_cache "k" = ["a"].
Proof.
  apply (to_element_list_drops_rest_of_failed_event no_kwargs
           one_event_cache "k" [] []
           [mkTimestampedElement "a" 0] [mkTimestampedElement "c" 0]
           (mkTimestampedElement "bad" 0) "t").
  - reflexivity.
  - reflexivity.
  - repeat constructor. exists "a". reflexivity.
  - reflexivity.
Defined.

Lemma to_element_list_only_element_payloads_witness :
  _to_element_list no_kwargs watermark_clock_element_cache "k" = ["a"]
  ∧ _to_element_list no_kwargs
      (streaming_cache_manager (∅ : gmap (list string) (list Event))
         failing_coder) "missing" = [].
Proof.
  split.
  - destruct (proj1 (to_element_list_only_element_payloads no_kwargs)
                watermark_clock_element_cache "k"
                [ AdvanceProcessingTime 5000000;
                  AdvanceWatermark 0 "t";
                  AddElements [mkTimestampedElement "a" 0] "t" ]
                eq_refl eq_refl) as [Heq _].
    rewrite Heq. reflexivity.
  - apply (proj2 (to_element_list_only_element_payloads no_kwargs)).
    vm_compute. discriminate.
Defined.

End MaterializeExamples.

(* ===================================================================== *)
(** * Further properties of the capture job controller *)
(* ===================================================================== *)

Section ControllerExtras.
Import PipelineState Job Orchestration.

(** Splits a job into its fields, its state into the thirteen pipeline
    states and its timer into alive or not, after which the methods
    evaluate. *)
Ltac job_cases j :=
  let s := fresh "s" in
  let alive := fresh "alive" in
  destruct j as [s alive ? ?]; destruct s, alive.

Lemma cancel_of_terminal reply j :
  is_terminal (_pipeline_result j) = true →
  cancel reply j
  = mkRun (mkJob (_pipeline_result j) false false
             (_condition_checker_triggered j))
          (if _timer_alive j then [TimerCancel] else [])
          (Returns tt).
Proof.
  destruct j as [s alive t c]; destruct s; intros Hs;
    try discriminate Hs; destruct alive; vm_compute; reflexivity.
Qed.

Lemma _cancel_of_terminal reply j :
  is_terminal (_pipeline_result j) = true →
  _cancel reply j = mkRun (set_timer_triggered true j) [] (Returns tt).
Proof.
  job_cases j; intros Hs; try discriminate Hs; vm_compute; reflexivity.
Qed.

Lemma step_keeps_terminal_state op j :
  is_controller_op op = true →
  is_terminal (_pipeline_result j) = true →
  _pipeline_result (step op j) = _pipeline_result j.
Proof.
  intros Hop Hs. destruct op as [reply|reply|reached reply|s]; unfold step.
  - rewrite cancel_of_terminal by exact Hs. reflexivity.
  - destruct (_timer_alive j); [|reflexivity].
    rewrite _cancel_of_terminal by exact Hs. reflexivity.
  - revert Hs. job_cases j; intros Hs; try discriminate Hs;
      destruct reached, reply; vm_compute; reflexivity.
  - discriminate Hop.
Qed.

(** X1.  The controller never changes a terminal pipeline state: after
    any sequence of external [cancel()] calls, timer firings and polls of
    the condition checker, a job whose state was terminal is in that same
    state. *)
Theorem controller_keeps_terminal_state (ops : list Op)
    (j : BackgroundCachingJob) :
  Forall (λ op, is_controller_op op = true) ops →
  is_terminal (_pipeline_result j) = true →
  _pipeline_result (run ops j) = _pipeline_result j.
Proof.
  intros Hops; revert j; induction Hops as [|op ops Hop _ IH]; intros j Hs;
    [reflexivity|].
  change (run (op :: ops) j) with (run ops (step op j)).
  rewrite IH; rewrite step_keeps_terminal_state; auto.
Qed.

Lemma controller_keeps_terminal_state_witness :
  _pipeline_result
    (run [ExternalCancel (CancelsTo CANCELLED); TimerFires NotImplementedError;
          CheckerPolls true (CancelsTo CANCELLING)]
         (__init__ DONE true)) = DONE.
Proof.
  apply (controller_keeps_terminal_state
           [ExternalCancel (CancelsTo CANCELLED);
            TimerFires NotImplementedError;
            CheckerPolls true (CancelsTo CANCELLING)]
           (__init__ DONE true)).
  - repeat constructor.
  - reflexivity.
Defined.

Lemma _cancel_sets_timer_flag reply j :
  _timer_triggered (job_after (_cancel reply j)) = true.
Proof.
  job_cases j; destruct reply; vm_compute; reflexivity.
Qed.

(** X2.  When the capture-duration timer fires on a job and the job is
    then CANCELLED or CANCELLING, the job counts as done, and the timer is
    no longer alive. *)
Theorem timer_cancellation_counts_as_done (j : BackgroundCachingJob)
    (reply : CancelReply) :
  _timer_alive j = true →
  let fired := step (TimerFires reply) j in
  _pipeline_result fired = CANCELLED ∨ _pipeline_result fired = CANCELLING →
  is_done fired = true ∧ _timer_alive fired = false.
Proof.
  intros Halive fired Hstate. subst fired. unfold step in *.
  rewrite Halive in *. split; [|reflexivity].
  unfold is_done.
  change (_timer_triggered
            (set_timer_alive false (job_after (_cancel reply j))))
    with (_timer_triggered (job_after (_cancel reply j))).
  rewrite _cancel_sets_timer_flag.
  apply orb_true_iff; right. apply andb_true_iff; split; [reflexivity|].
  apply orb_true_iff.
  destruct Hstate as [H|H]; [left|right]; apply bool_decide_eq_true; exact H.
Qed.

Lemma timer_cancellation_counts_as_done_witness :
  is_done (step (TimerFires (CancelsTo CANCELLED)) (__init__ RUNNING true))
  = true.
Proof.
  apply (timer_cancellation_counts_as_done (__init__ RUNNING true)
           (CancelsTo CANCELLED)); [reflexivity|left; reflexivity].
Defined.

(** X3.  An external [cancel()] that returns takes away whatever the
    timer had attributed to itself: unless the size-limit checker has
    fired or the job is DONE, the job is not done afterwards, even if it
    was before. *)
Theorem external_cancel_revokes_timer_completion (j : BackgroundCachingJob)
    (reply : CancelReply) :
  _condition_checker_triggered j = false →
  let r := cancel reply j in
  completion r = Returns tt →
  _pipeline_result (job_after r) ≠ DONE →
  is_done (job_after r) = false.
Proof.
  intros Hc r Hret Hstate.
  apply is_not_done_when_unattributed; [| |exact Hstate].
  - apply cancel_resets_timer_flag, Hret.
  - subst r. rewrite cancel_keeps_checker_flag. exact Hc.
Qed.

Lemma external_cancel_revokes_timer_completion_witness :
  let fired :=
    step (TimerFires (CancelsTo CANCELLED)) (__init__ RUNNING true) in
  is_done fired = true
  ∧ is_done (job_after (cancel NotImplementedError fired)) = false.
Proof.
  split; [reflexivity|].
  apply (external_cancel_revokes_timer_completion
           (step (TimerFires (CancelsTo CANCELLED)) (__init__ RUNNING true))
           NotImplementedError); [reflexivity|reflexivity|discriminate].
Defined.

Lemma cancel_stops_timer reply j :
  completion (cancel reply j) = Returns tt →
  _timer_alive (job_after (cancel reply j)) = false.
Proof.
  job_cases j; destruct reply; vm_compute; intros H;
    try reflexivity; discriminate H.
Qed.

Lemma poll_without_timer_ends reached reply j :
  _timer_alive j = false →
  completion (_should_end_condition_checker reached reply j) ≠ Returns false.
Proof.
  job_cases j; intros Halive; try discriminate Halive;
    destruct reached, reply; vm_compute; discriminate.
Qed.

Lemma checker_loop_cons reached reply polls j :
  _background_caching_job_condition_checker ((reached, reply) :: polls) j
  = let r := _should_end_condition_checker reached reply j in
    match completion r with
    | Returns true => mkRun (job_after r) (effects r ++ []) (Returns tt)
    | Returns false =>
        let r' :=
          _background_caching_job_condition_checker polls (job_after r) in
        mkRun (job_after r') (effects r ++ effects r') (completion r')
    | Raises what => mkRun (job_after r) (effects r) (Raises what)
    end.
Proof.
  simpl. unfold mbind at 1, M_bind at 1.
  destruct (completion (_should_end_condition_checker reached reply j))
    as [[|]|]; reflexivity.
Qed.

(** X4.  After a [cancel()] that returned, the condition checker ends at
    its very next poll: later polls are never made. *)
Theorem checker_ends_at_next_poll_after_cancel (j : BackgroundCachingJob)
    (reply : CancelReply) (poll : bool * CancelReply)
    (polls : list (bool * CancelReply)) :
  completion (cancel reply j) = Returns tt →
  _background_caching_job_condition_checker (poll :: polls)
    (job_after (cancel reply j))
  = _background_caching_job_condition_checker [poll]
      (job_after (cancel reply j)).
Proof.
  intros Hret. destruct poll as [reached reply'].
  rewrite !checker_loop_cons.
  pose proof (poll_without_timer_ends reached reply' _
                (cancel_stops_timer _ _ Hret)) as Hend.
  cbv zeta.
  destruct (completion (_should_end_condition_checker reached reply' _))
    as [[|]|]; [reflexivity|congruence|reflexivity].
Qed.

Lemma checker_ends_at_next_poll_after_cancel_witness :
  let cancelled :=
    job_after (cancel (CancelsTo CANCELLING) (__init__ RUNNING true)) in
  _background_caching_job_condition_checker
    [(false, NotImplementedError); (true, CancelsTo CANCELLED)] cancelled
  = _background_caching_job_condition_checker
      [(false, NotImplementedError)] cancelled.
Proof.
  apply (checker_ends_at_next_poll_after_cancel (__init__ RUNNING true)
           (CancelsTo CANCELLING) (false, NotImplementedError)
           [(true, CancelsTo CANCELLED)]).
  reflexivity.
Defined.

Lemma cancel_requests_at_most_once reply j :
  (engine_requests (effects (cancel reply j)) ≤ 1)%nat.
Proof.
  job_cases j; destruct reply; vm_compute; lia.
Qed.

Lemma poll_effects reached reply j :
  completion (_should_end_condition_checker reached reply j) = Returns false →
  effects (_should_end_condition_checker reached reply j) = []
  ∧ job_after (_should_end_condition_checker reached reply j) = j.
Proof.
  job_cases j; destruct reached, reply; vm_compute; intros H;
    try discriminate H; auto.
Qed.

Lemma poll_requests_at_most_once reached reply j :
  (engine_requests
     (effects (_should_end_condition_checker reached reply j)) ≤ 1)%nat.
Proof.
  job_cases j; destruct reached, reply; vm_compute; lia.
Qed.

(** X5.  Over its whole life the condition checker asks the engine to
    cancel at most once, whatever the polls answer. *)
Theorem checker_requests_cancellation_at_most_once
    (polls : list (bool * CancelReply)) (j : BackgroundCachingJob) :
  (engine_requests
     (effects (_background_caching_job_condition_checker polls j)) ≤ 1)%nat.
Proof.
  revert j; induction polls as [|[reached reply] polls IH]; intros j.
  - vm_compute; lia.
  - rewrite checker_loop_cons. cbv zeta.
    pose proof (poll_requests_at_most_once reached reply j) as Hone.
    pose proof (poll_effects reached reply j) as Hcont.
    destruct (completion (_should_end_condition_checker reached reply j))
      as [[|]|]; simpl.
    + rewrite app_nil_r. exact Hone.
    + destruct (Hcont eq_refl) as [-> ->]. apply IH.
    + exact Hone.
Qed.

(** X6.  As long as no poll finds the capture size reached, the
    condition checker leaves the job exactly as it was, calls nothing and
    raises nothing. *)
Theorem checker_without_size_limit_leaves_job
    (polls : list (bool * CancelReply)) (j : BackgroundCachingJob) :
  Forall (λ poll, poll.1 = false) polls →
  _background_caching_job_condition_checker polls j
  = mkRun j [] (Returns tt).
Proof.
  intros Hpolls; induction Hpolls as [|[reached reply] polls Hr _ IH];
    [reflexivity|].
  simpl in Hr; subst reached. rewrite checker_loop_cons.
  replace (_should_end_condition_checker false reply j)
    with (mkRun j [] (Returns (negb (_timer_alive j))))
    by (destruct j as [s [|] t c]; reflexivity).
  cbv zeta; simpl. destruct (_timer_alive j); simpl; [|reflexivity].
  rewrite IH; reflexivity.
Qed.

Lemma checker_without_size_limit_leaves_job_witness :
  _background_caching_job_condition_checker
    [(false, CancelsTo CANCELLED); (false, NotImplementedError)]
    (__init__ RUNNING true)
  = mkRun (__init__ RUNNING true) [] (Returns tt).
Proof.
  apply (checker_without_size_limit_leaves_job
           [(false, CancelsTo CANCELLED); (false, NotImplementedError)]
           (__init__ RUNNING true)).
  repeat constructor.
Defined.

(** X7.  A job that is done is not running. *)
Theorem done_job_is_not_running (self : BackgroundCachingJob) :
  is_done self = true → is_running self = false.
Proof.
  unfold is_done, is_running. destruct (_pipeline_result self); simpl;
    intros H; try reflexivity.
  rewrite andb_false_r in H; discriminate.
Qed.

Lemma done_job_is_not_running_witness :
  is_running (mkJob CANCELLING false true false) = false.
Proof.
  apply (done_job_is_not_running (mkJob CANCELLING false true false)).
  reflexivity.
Defined.

(** X8.  Once a [cancel()] has returned with the job in a terminal
    state, a further [cancel()] is a no-op: it changes no field, asks
    nothing of the engine or the timer, and returns. *)
Theorem second_cancel_of_terminated_job_is_noop (j : BackgroundCachingJob)
    (reply reply' : CancelReply) :
  let r := cancel reply j in
  completion r = Returns tt →
  is_terminal (_pipeline_result (job_after r)) = true →
  cancel reply' (job_after r) = mkRun (job_after r) [] (Returns tt).
Proof.
  intros r Hret Hterm. rewrite cancel_of_terminal by exact Hterm.
  pose proof (cancel_stops_timer _ _ Hret) as Halive.
  pose proof (cancel_resets_timer_flag _ _ Hret) as Hflag.
  fold r in Halive, Hflag. rewrite Halive.
  destruct (job_after r) as [s alive t c]; simpl in *; subst; reflexivity.
Qed.

Lemma second_cancel_of_terminated_job_is_noop_witness :
  let cancelled :=
    job_after (cancel (CancelsTo CANCELLED) (__init__ RUNNING true)) in
  cancel (CancelsTo CANCELLED) cancelled = mkRun cancelled [] (Returns tt).
Proof.
  apply (second_cancel_of_terminated_job_is_noop (__init__ RUNNING true)
           (CancelsTo CANCELLED) (CancelsTo CANCELLED)); reflexivity.
Defined.

End ControllerExtras.

(* ===================================================================== *)
(** * Further properties of the tracker and of starting a job *)
(* ===================================================================== *)

Section TrackerExtras.
Import PipelineState Job BackgroundCaching Orchestration.

Lemma source_check_settled env user_pipeline update :
  extract_source_to_cache_signature user_pipeline
  ⊆ get_cached_source_signature env user_pipeline →
  is_source_to_cache_changed user_pipeline update env = (false, env).
Proof.
  intros Hsub. unfold is_source_to_cache_changed.
  rewrite bool_decide_eq_true_2 by exact Hsub. reflexivity.
Qed.

Lemma source_check_keeps env user_pipeline :
  let r := is_source_to_cache_changed user_pipeline true env in
  _background_caching_jobs r.2 = _background_caching_jobs env
  ∧ _cache_manager_is_streaming r.2 = _cache_manager_is_streaming env
  ∧ extract_source_to_cache_signature user_pipeline
    ⊆ get_cached_source_signature r.2 user_pipeline.
Proof.
  unfold is_source_to_cache_changed.
  destruct (bool_decide _) eqn:Hsub; simpl.
  - apply bool_decide_eq_true in Hsub. auto.
  - destruct (decide (get_cached_source_signature env user_pipeline = ∅));
      unfold get_cached_source_signature, set_cached_source_signature; simpl;
      rewrite lookup_insert_eq; auto.
Qed.

(** X9.  The signature check settles: right after a mutating check, a
    further check of the same pipeline, mutating or not, reports no change
    and leaves the environment as it is. *)
Theorem source_check_settles (env : InteractiveEnvironment)
    (user_pipeline : Pipeline) (update : bool) :
  let r := is_source_to_cache_changed user_pipeline true env in
  is_source_to_cache_changed user_pipeline update r.2 = (false, r.2).
Proof.
  intros r. apply source_check_settled.
  apply (source_check_keeps env user_pipeline).
Qed.

(** X10.  The signature is a set: two lists of unbounded sources with the
    same members, in whatever order and however often repeated, give the
    same answer and the same environment. *)
Theorem source_check_ignores_order_and_repetition
    (env : InteractiveEnvironment) (id : nat) (sources sources' : list string)
    (update : bool) :
  (∀ x, x ∈ sources ↔ x ∈ sources') →
  is_source_to_cache_changed (mkPipeline id sources) update env
  = is_source_to_cache_changed (mkPipeline id sources') update env.
Proof.
  intros Hsame.
  assert (Hsig : extract_source_to_cache_signature (mkPipeline id sources)
                 = extract_source_to_cache_signature (mkPipeline id sources')).
  { unfold extract_source_to_cache_signature; simpl.
    apply set_eq. intros x. rewrite !elem_of_list_to_set. apply Hsame. }
  unfold is_source_to_cache_changed. rewrite Hsig. reflexivity.
Qed.

Lemma source_check_ignores_order_and_repetition_witness :
  is_source_to_cache_changed (mkPipeline 0 ["S1"; "S2"]) true
    (mkEnv true ∅ ∅ ∅ [])
  = is_source_to_cache_changed (mkPipeline 0 ["S2"; "S1"; "S2"]) true
      (mkEnv true ∅ ∅ ∅ []).
Proof.
  apply (source_check_ignores_order_and_repetition (mkEnv true ∅ ∅ ∅ []) 0
           ["S1"; "S2"] ["S2"; "S1"; "S2"] true).
  intros x. rewrite !elem_of_cons, !elem_of_nil. tauto.
Defined.

(** X11.  For a pipeline without unbounded sources no background caching
    job is needed, and the decision leaves the environment untouched:
    nothing is wrapped, cleared, recorded or logged. *)
Theorem no_unbounded_source_needs_no_job (env : InteractiveEnvironment)
    (user_pipeline : Pipeline) :
  unbounded_sources user_pipeline = [] →
  is_background_caching_job_needed user_pipeline env = (false, env).
Proof.
  intros Hnone. unfold is_background_caching_job_needed, has_source_to_cache,
    has_unbounded_sources.
  rewrite Hnone. rewrite bool_decide_eq_false_2 by congruence. simpl.
  rewrite source_check_settled; [reflexivity|].
  unfold extract_source_to_cache_signature. rewrite Hnone. simpl.
  set_solver.
Qed.

Lemma no_unbounded_source_needs_no_job_witness :
  is_background_caching_job_needed (mkPipeline 0 [])
    (mkEnv false ∅ ∅ {[0%nat := {["S1"]}]} [])
  = (false, mkEnv false ∅ ∅ {[0%nat := {["S1"]}]} []).
Proof.
  apply (no_unbounded_source_needs_no_job
           (mkEnv false ∅ ∅ {[0%nat := {["S1"]}]} []) (mkPipeline 0 [])).
  reflexivity.
Defined.

Lemma job_needed_unfold env user_pipeline :
  is_background_caching_job_needed user_pipeline env
  = let check :=
      is_source_to_cache_changed user_pipeline true
        (has_source_to_cache user_pipeline env).2 in
    (has_unbounded_sources user_pipeline
     && (job_is_missing_or_ended
           (get_background_caching_job env user_pipeline)
         || check.1),
     check.2).
Proof.
  unfold is_background_caching_job_needed, has_source_to_cache.
  destruct (_ && negb _); simpl;
    destruct (is_source_to_cache_changed user_pipeline true _);
    reflexivity.
Qed.

Lemma has_source_to_cache_keeps env user_pipeline :
  let env' := (has_source_to_cache user_pipeline env).2 in
  _background_caching_jobs env' = _background_caching_jobs env
  ∧ get_cached_source_signature env' user_pipeline
    = get_cached_source_signature env user_pipeline
  ∧ (has_unbounded_sources user_pipeline = true →
     _cache_manager_is_streaming env' = true).
Proof.
  unfold has_source_to_cache.
  destruct (has_unbounded_sources user_pipeline),
    (_cache_manager_is_streaming env) eqn:Hs; simpl;
    repeat split; auto; discriminate.
Qed.

Lemma job_needed_keeps env user_pipeline :
  let env' := (is_background_caching_job_needed user_pipeline env).2 in
  _background_caching_jobs env' = _background_caching_jobs env
  ∧ extract_source_to_cache_signature user_pipeline
    ⊆ get_cached_source_signature env' user_pipeline
  ∧ (has_unbounded_sources user_pipeline = true →
     _cache_manager_is_streaming env' = true).
Proof.
  rewrite job_needed_unfold. cbv zeta. cbn [snd].
  destruct (has_source_to_cache_keeps env user_pipeline) as (Hj & _ & Hs).
  destruct (source_check_keeps (has_source_to_cache user_pipeline env).2
              user_pipeline) as (Hj' & Hs' & Hsub).
  split; [congruence|]. split; [exact Hsub|].
  intros Hhas. rewrite Hs'. auto.
Qed.

(** When the recorded signature covers the pipeline's and the cache
    manager is already a streaming one, the decision reads the job only
    and changes nothing. *)
Lemma job_needed_when_settled env user_pipeline :
  extract_source_to_cache_signature user_pipeline
  ⊆ get_cached_source_signature env user_pipeline →
  (has_unbounded_sources user_pipeline = true →
   _cache_manager_is_streaming env = true) →
  is_background_caching_job_needed user_pipeline env
  = (has_unbounded_sources user_pipeline
     && job_is_missing_or_ended
          (get_background_caching_job env user_pipeline),
     env).
Proof.
  intros Hsub Hstream. rewrite job_needed_unfold. cbv zeta.
  assert (Hhas : (has_source_to_cache user_pipeline env).2 = env).
  { unfold has_source_to_cache.
    destruct (has_unbounded_sources user_pipeline); [|reflexivity].
    rewrite Hstream by reflexivity. reflexivity. }
  rewrite Hhas, source_check_settled by exact Hsub. simpl.
  rewrite orb_false_r. reflexivity.
Qed.

(** X12.  A decision taken right after another one for the same pipeline
    depends on the tracked job only: it is true exactly when the pipeline
    has unbounded sources and the job is missing or neither done nor
    running, and it leaves the environment as the first one left it. *)
Theorem second_decision_reads_the_job_only (env : InteractiveEnvironment)
    (user_pipeline : Pipeline) :
  let first := is_background_caching_job_needed user_pipeline env in
  is_background_caching_job_needed user_pipeline first.2
  = (has_unbounded_sources user_pipeline
     && job_is_missing_or_ended
          (get_background_caching_job env user_pipeline),
     first.2).
Proof.
  intros first.
  destruct (job_needed_keeps env user_pipeline) as (Hj & Hsub & Hs).
  fold first in Hj, Hsub, Hs.
  rewrite job_needed_when_settled by assumption.
  unfold get_background_caching_job. rewrite Hj. reflexivity.
Qed.

(** X13.  [attempt_to_cancel_background_caching_job] touches the tracked
    job of its pipeline and nothing else: cached data, recorded signatures,
    test stream services and the jobs of other pipelines are as before; the
    tracked job is the one [cancel()] leaves; without a tracked job
    nothing happens at all. *)
Theorem attempt_to_cancel_touches_only_the_job (reply : CancelReply)
    (user_pipeline : Pipeline) (s : Session) :
  let a := attempt_to_cancel_background_caching_job reply user_pipeline s in
  _cached_data (_env (session_after a)) = _cached_data (_env s)
  ∧ _cached_source_signatures (_env (session_after a))
    = _cached_source_signatures (_env s)
  ∧ _test_stream_service_controllers (session_after a)
    = _test_stream_service_controllers s
  ∧ (∀ other,
       pipeline_id other ≠ pipeline_id user_pipeline →
       get_background_caching_job (_env (session_after a)) other
       = get_background_caching_job (_env s) other)
  ∧ match get_background_caching_job (_env s) user_pipeline with
    | Some job =>
        get_background_caching_job (_env (session_after a)) user_pipeline
        = Some (job_after (cancel reply job))
    | None => a = mkAttempt s [] (Returns tt)
    end.
Proof.
  unfold attempt_to_cancel_background_caching_job.
  destruct (get_background_caching_job (_env s) user_pipeline) as [job|];
    simpl; repeat split; auto.
  - intros other Hother. unfold get_background_caching_job; simpl.
    apply lookup_insert_ne. congruence.
  - unfold get_background_caching_job; simpl. apply lookup_insert_eq.
Qed.

Lemma attempt_to_run_unfold reply started user_pipeline s :
  attempt_to_run_background_caching_job reply started user_pipeline s
  = let decision :=
      is_background_caching_job_needed user_pipeline (_env s) in
    let s1 := mkSession decision.2 (_test_stream_service_controllers s) in
    if decision.1
    then
      let cancelled :=
        attempt_to_cancel_background_caching_job reply user_pipeline s1 in
      match attempt_completion cancelled with
      | Raises what => cancelled
      | Returns _ =>
          let stopped :=
            attempt_to_stop_test_stream_service user_pipeline
              (session_after cancelled) in
          mkAttempt
            (mkSession
               (set_background_caching_job user_pipeline
                  (__init__ started true) (_env (session_after stopped)))
               (_test_stream_service_controllers (session_after stopped)))
            (actions cancelled ++ actions stopped
             ++ [RunBackgroundCachingPipeline (pipeline_id user_pipeline)])
            (Returns tt)
      end
    else mkAttempt s1 [] (Returns tt).
Proof.
  unfold attempt_to_run_background_caching_job.
  destruct (is_background_caching_job_needed user_pipeline (_env s));
    reflexivity.
Qed.

(** X14.  When a job is needed and the attempt returns, the pipeline
    tracks a fresh job (both flags false, timer started) on the new
    pipeline result, no test stream service is left for it, and the
    collaborators were called in this order: the previous job's
    [cancel()] calls, the stop of a running test stream service, the run
    of the background caching pipeline. *)
Theorem attempt_to_run_replaces_the_job (reply : CancelReply)
    (started : PipelineState.t) (user_pipeline : Pipeline) (s : Session) :
  (is_background_caching_job_needed user_pipeline (_env s)).1 = true →
  let a :=
    attempt_to_run_background_caching_job reply started user_pipeline s in
  attempt_completion a = Returns tt →
  get_background_caching_job (_env (session_after a)) user_pipeline
  = Some (__init__ started true)
  ∧ is_a_test_stream_service_running user_pipeline (session_after a) = false
  ∧ actions a
    = match get_background_caching_job (_env s) user_pipeline with
      | Some job =>
          OnJob (pipeline_id user_pipeline) <$> effects (cancel reply job)
      | None => []
      end
      ++ (if is_a_test_stream_service_running user_pipeline s
          then [StopTestStreamService (pipeline_id user_pipeline)]
          else [])
      ++ [RunBackgroundCachingPipeline (pipeline_id user_pipeline)].
Proof.
  intros Hneeded a. subst a. rewrite attempt_to_run_unfold. cbv zeta.
  rewrite Hneeded.
  destruct (job_needed_keeps (_env s) user_pipeline) as (Hjobs & _ & _).
  unfold attempt_to_cancel_background_caching_job,
    get_background_caching_job; cbn [_env snd]. rewrite Hjobs.
  destruct (_background_caching_jobs (_env s) !! pipeline_id user_pipeline)
    as [job|]; cbn [attempt_completion session_after actions].
  - destruct (completion (cancel reply job)) as [[]|what] eqn:Hret; simpl;
      [|discriminate].
    intros _. unfold attempt_to_stop_test_stream_service,
      is_a_test_stream_service_running; simpl.
    destruct (bool_decide (pipeline_id user_pipeline
                           ∈ _test_stream_service_controllers s)) eqn:Hrun;
      simpl; (split; [apply lookup_insert_eq|]); (split; [|reflexivity]).
    + apply bool_decide_eq_false.
      intros [_ Hnot]%elem_of_difference.
      apply Hnot, elem_of_singleton. reflexivity.
    + exact Hrun.
  - intros _. unfold attempt_to_stop_test_stream_service,
      is_a_test_stream_service_running; simpl.
    destruct (bool_decide (pipeline_id user_pipeline
                           ∈ _test_stream_service_controllers s)) eqn:Hrun;
      simpl; (split; [apply lookup_insert_eq|]); (split; [|reflexivity]).
    + apply bool_decide_eq_false.
      intros [_ Hnot]%elem_of_difference.
      apply Hnot, elem_of_singleton. reflexivity.
    + exact Hrun.
Qed.

Lemma attempt_to_run_replaces_the_job_witness :
  let s :=
    mkSession
      (mkEnv false ∅ {[0%nat := mkJob RUNNING true false false]}
         {[0%nat := {["S1"]}]} [])
      {[0%nat]} in
  let a :=
    attempt_to_run_background_caching_job (CancelsTo CANCELLED) RUNNING
      (mkPipeline 0 ["S1"; "S2"]) s in
  get_background_caching_job (_env (session_after a))
    (mkPipeline 0 ["S1"; "S2"]) = Some (__init__ RUNNING true)
  ∧ actions a
    = [OnJob 0 PipelineResultCancel; OnJob 0 TimerCancel;
       StopTestStreamService 0; RunBackgroundCachingPipeline 0].
Proof.
  intros s a.
  destruct (attempt_to_run_replaces_the_job (CancelsTo CANCELLED) RUNNING
              (mkPipeline 0 ["S1"; "S2"]) s) as (Hjob & _ & Hactions).
  - vm_compute. reflexivity.
  - vm_compute. reflexivity.
  - subst a. split; [exact Hjob|]. rewrite Hactions. vm_compute.
    reflexivity.
Defined.

Lemma attempt_to_cancel_keeps reply user_pipeline s :
  let a := attempt_to_cancel_background_caching_job reply user_pipeline s in
  _cached_source_signatures (_env (session_after a))
  = _cached_source_signatures (_env s)
  ∧ _cache_manager_is_streaming (_env (session_after a))
    = _cache_manager_is_streaming (_env s).
Proof.
  unfold attempt_to_cancel_background_caching_job.
  destruct (get_background_caching_job (_env s) user_pipeline);
    split; reflexivity.
Qed.

(** X15.  No second job while one is running: after an attempt that
    returned, with any job it started being RUNNING (or already DONE), the
    next attempt for the same pipeline does nothing at all. *)
Theorem no_second_job_while_running (reply reply' : CancelReply)
    (started started' : PipelineState.t) (user_pipeline : Pipeline)
    (s : Session) :
  let a :=
    attempt_to_run_background_caching_job reply started user_pipeline s in
  attempt_completion a = Returns tt →
  started = RUNNING ∨ started = DONE →
  attempt_to_run_background_caching_job reply' started' user_pipeline
    (session_after a)
  = mkAttempt (session_after a) [] (Returns tt).
Proof.
  intros a Hret Hstarted. subst a. revert Hret.
  rewrite (attempt_to_run_unfold reply). cbv zeta.
  destruct (job_needed_keeps (_env s) user_pipeline) as (Hjobs & Hsub & Hs).
  pose proof (job_needed_unfold (_env s) user_pipeline) as Hfirst.
  cbv zeta in Hfirst.
  destruct (is_background_caching_job_needed user_pipeline (_env s))
    as [needed env1] eqn:Hneeded.
  cbn [fst snd] in *. injection Hfirst as Hneeded1 _.
  destruct needed.
  - (* a job was needed: the fresh one is tracked afterwards *)
    assert (Hhas : has_unbounded_sources user_pipeline = true).
    { symmetry in Hneeded1. apply andb_true_iff in Hneeded1 as [H _].
      exact H. }
    set (cancelled := attempt_to_cancel_background_caching_job reply
                        user_pipeline _).
    destruct (attempt_to_cancel_keeps reply user_pipeline
                (mkSession env1 (_test_stream_service_controllers s)))
      as (Hsigs & Hstream).
    fold cancelled in Hsigs, Hstream. cbn [_env] in Hsigs, Hstream.
    destruct (attempt_completion cancelled) as [[]|what] eqn:Hc;
      [|intros Hret; rewrite Hc in Hret; discriminate].
    intros _. cbn [session_after].
    set (stopped := attempt_to_stop_test_stream_service user_pipeline _).
    assert (Henv : _env (session_after stopped)
                   = _env (session_after cancelled)).
    { subst stopped. unfold attempt_to_stop_test_stream_service.
      destruct (is_a_test_stream_service_running _ _); reflexivity. }
    assert (Hfresh : job_is_missing_or_ended (Some (__init__ started true))
                     = false)
      by (destruct Hstarted as [-> | ->]; reflexivity).
    rewrite attempt_to_run_unfold. cbv zeta. cbn [_env].
    rewrite job_needed_when_settled.
    + cbn [fst snd].
      replace (get_background_caching_job
                 (set_background_caching_job user_pipeline
                    (__init__ started true) (_env (session_after stopped)))
                 user_pipeline)
        with (Some (__init__ started true))
        by (symmetry; apply lookup_insert_eq).
      rewrite Hfresh, andb_false_r. reflexivity.
    + unfold get_cached_source_signature, set_background_caching_job.
      cbn [_cached_source_signatures]. rewrite Henv, Hsigs. exact Hsub.
    + intros _. unfold set_background_caching_job.
      cbn [_cache_manager_is_streaming]. rewrite Henv, Hstream. auto.
  - (* no job was needed: nothing has changed for the decision *)
    intros _. cbn [session_after].
    rewrite attempt_to_run_unfold. cbv zeta. cbn [_env].
    rewrite job_needed_when_settled by assumption.
    cbn [fst snd].
    assert (Hno : has_unbounded_sources user_pipeline
                  && job_is_missing_or_ended
                       (get_background_caching_job env1 user_pipeline)
                  = false).
    { unfold get_background_caching_job in *. rewrite Hjobs.
      destruct (has_unbounded_sources user_pipeline); [|reflexivity].
      rewrite andb_true_l in Hneeded1 |- *. symmetry in Hneeded1.
      apply orb_false_iff in Hneeded1 as [H _]. exact H. }
    rewrite Hno. reflexivity.
Qed.

Lemma no_second_job_while_running_witness :
  let s :=
    mkSession
      (mkEnv false ∅ {[0%nat := mkJob RUNNING true false false]}
         {[0%nat := {["S1"]}]} [])
      {[0%nat]} in
  let a :=
    attempt_to_run_background_caching_job (CancelsTo CANCELLED) RUNNING
      (mkPipeline 0 ["S1"; "S2"]) s in
  attempt_to_run_background_caching_job NotImplementedError RUNNING
    (mkPipeline 0 ["S1"; "S2"]) (session_after a)
  = mkAttempt (session_after a) [] (Returns tt).
Proof.
  intros s a.
  apply (no_second_job_while_running (CancelsTo CANCELLED)
           NotImplementedError RUNNING RUNNING (mkPipeline 0 ["S1"; "S2"]) s).
  - vm_compute. reflexivity.
  - left; reflexivity.
Defined.

(** X16.  The background caching pipeline is run exactly when a job is
    needed and cancelling the previous one did not raise. *)
Theorem pipeline_runs_only_when_needed (reply : CancelReply)
    (started : PipelineState.t) (user_pipeline : Pipeline) (s : Session) :
  let a :=
    attempt_to_run_background_caching_job reply started user_pipeline s in
  RunBackgroundCachingPipeline (pipeline_id user_pipeline) ∈ actions a
  ↔ (is_background_caching_job_needed user_pipeline (_env s)).1 = true
    ∧ attempt_completion a = Returns tt.
Proof.
  intros a. subst a. rewrite attempt_to_run_unfold. cbv zeta.
  destruct (is_background_caching_job_needed user_pipeline (_env s)).1;
    [|simpl; split; [inversion 1|intros [? _]; discriminate]].
  set (cancelled := attempt_to_cancel_background_caching_job reply _ _).
  assert (Hnone : RunBackgroundCachingPipeline (pipeline_id user_pipeline)
                  ∉ actions cancelled).
  { subst cancelled. unfold attempt_to_cancel_background_caching_job.
    destruct (get_background_caching_job _ _); simpl; [|inversion 1].
    intros (e & He & _)%list_elem_of_fmap. discriminate. }
  destruct (attempt_completion cancelled) as [[]|what] eqn:Hc.
  - simpl. split; [auto|]. intros _.
    rewrite !elem_of_app. right; right. left.
  - rewrite Hc. split; [contradiction|]. intros [_ ?]; discriminate.
Qed.

(** X17.  [has_source_to_cache] does not invalidate anything: cached
    data, jobs, recorded signatures and the log are as before, the cache
    manager is a streaming one afterwards exactly if it was or the pipeline
    has unbounded sources, and a second call changes nothing more. *)
Theorem has_source_to_cache_only_wraps (env : InteractiveEnvironment)
    (user_pipeline : Pipeline) :
  let r := has_source_to_cache user_pipeline env in
  _cached_data r.2 = _cached_data env
  ∧ _background_caching_jobs r.2 = _background_caching_jobs env
  ∧ _cached_source_signatures r.2 = _cached_source_signatures env
  ∧ _log r.2 = _log env
  ∧ _cache_manager_is_streaming r.2
    = _cache_manager_is_streaming env || has_unbounded_sources user_pipeline
  ∧ has_source_to_cache user_pipeline r.2 = r.
Proof.
  unfold has_source_to_cache.
  destruct env as [streaming data jobs sigs log].
  destruct (has_unbounded_sources user_pipeline), streaming; simpl;
    repeat split; reflexivity.
Qed.

(** X19.  After [attempt_to_stop_test_stream_service] no test stream
    service runs for the pipeline; the environment and the services of
    other pipelines are untouched; the service is stopped exactly if one
    was running; and a second attempt does nothing. *)
Theorem attempt_to_stop_leaves_no_service (user_pipeline : Pipeline)
    (s : Session) :
  let a := attempt_to_stop_test_stream_service user_pipeline s in
  is_a_test_stream_service_running user_pipeline (session_after a) = false
  ∧ _env (session_after a) = _env s
  ∧ (∀ other,
       pipeline_id other ≠ pipeline_id user_pipeline →
       is_a_test_stream_service_running other (session_after a)
       = is_a_test_stream_service_running other s)
  ∧ (StopTestStreamService (pipeline_id user_pipeline) ∈ actions a
     ↔ is_a_test_stream_service_running user_pipeline s = true)
  ∧ attempt_to_stop_test_stream_service user_pipeline (session_after a)
    = mkAttempt (session_after a) [] (Returns tt).
Proof.
  unfold attempt_to_stop_test_stream_service.
  destruct (is_a_test_stream_service_running user_pipeline s) eqn:Hrun;
    cbn [session_after actions _env].
  - assert (Hgone : is_a_test_stream_service_running user_pipeline
                      (mkSession (_env s)
                         (_test_stream_service_controllers s
                          ∖ {[pipeline_id user_pipeline]})) = false).
    { apply bool_decide_eq_false. cbn [_test_stream_service_controllers].
      intros [_ Hnot]%elem_of_difference.
      apply Hnot, elem_of_singleton. reflexivity. }
    rewrite Hgone. repeat split; auto.
    + intros other Hother. unfold is_a_test_stream_service_running.
      cbn [_test_stream_service_controllers].
      apply bool_decide_ext. rewrite elem_of_difference, elem_of_singleton.
      tauto.
    + intros _. left.
  - rewrite Hrun. repeat split; auto.
    + inversion 1.
    + discriminate.
Qed.

End TrackerExtras.

(* ===================================================================== *)
(** * Properties of [windows_formatter], more of [_to_element_list] *)
(* ===================================================================== *)

Section FormatterExtras.
Import WindowsFormatter.

(** X20.  The parts [windows_formatter] computes for a duration add up
    to it again: [hours], [minutes], [seconds] and [micros] satisfy
    duration = ((hours * 60 + minutes) * 60 + seconds) * 10^6 + micros
    with minutes and seconds below 60 and micros below 10^6 and none of
    the three negative, for every duration, negative ones included. *)
Theorem duration_parts_decompose (duration : Z) :
  let '(hours, minutes, seconds, micros) := duration_parts duration in
  0 ≤ minutes < 60 ∧ 0 ≤ seconds < 60 ∧ 0 ≤ micros < 1000000
  ∧ duration = ((hours * 60 + minutes) * 60 + seconds) * 1000000 + micros.
Proof.
  unfold duration_parts. cbv zeta.
  Z.div_mod_to_equations. lia.
Qed.

Lemma append_empty (a b : string) : a +:+ b = "" → a = "" ∧ b = "".
Proof. destruct a; simpl; [auto|discriminate]. Qed.

Lemma duration_text_parts (duration : Z) :
  duration_text duration = "" ↔
  duration / 1000000 / 3600 = 0
  ∧ duration / 1000000 mod 3600 / 60 = 0
  ∧ duration / 1000000 mod 3600 mod 60 = 0.
Proof.
  unfold duration_text, duration_parts. cbv zeta.
  set (hours := duration / 1000000 / 3600).
  set (minutes := duration / 1000000 mod 3600 / 60).
  set (seconds := duration / 1000000 mod 3600 mod 60).
  set (micros := (duration - duration / 1000000 * 1000000) mod 1000000).
  split.
  - intros Hempty.
    apply append_empty in Hempty as [Hh Hrest].
    apply append_empty in Hrest as [Hm Hs].
    destruct (decide (hours ≠ 0)) as [_|Hh0];
      [destruct (pretty hours); discriminate|].
    destruct (decide (seconds ≠ 0)) as [_|Hs0].
    { destruct (decide (micros ≠ 0));
        destruct (pretty seconds); discriminate. }
    destruct (decide (minutes ≠ 0 ∨ hours ≠ 0 ∧ seconds ≠ 0))
      as [_|Hm0]; [destruct (pretty minutes); discriminate|].
    lia.
  - intros (-> & -> & ->).
    rewrite !decide_False by lia. reflexivity.
Qed.

(** X21.  The duration string is empty exactly for the durations from 0
    up to, but not including, one second. *)
Theorem duration_text_empty_iff_below_one_second (duration : Z) :
  duration_text duration = "" ↔ 0 ≤ duration < 1000000.
Proof.
  rewrite duration_text_parts. Z.div_mod_to_equations. lia.
Qed.

(** X22.  When the seconds part of a duration is 0, its microseconds
    are not shown: the duration prints like the whole seconds alone. *)
Theorem duration_text_drops_micros_without_seconds (duration : Z) :
  duration / 1000000 mod 60 = 0 →
  duration_text duration = duration_text (duration / 1000000 * 1000000).
Proof.
  intros Hsec. unfold duration_text, duration_parts. cbv zeta.
  rewrite (Z.div_mul (duration / 1000000) 1000000) by lia.
  assert (Hs : duration / 1000000 mod 3600 mod 60 = 0)
    by (Z.div_mod_to_equations; lia).
  rewrite Hs. rewrite !(decide_False (P := 0 ≠ 0)) by lia. reflexivity.
Qed.

Lemma duration_text_drops_micros_without_seconds_witness :
  duration_text 60500000 = duration_text 60000000.
Proof.
  apply (duration_text_drops_micros_without_seconds 60500000).
  reflexivity.
Defined.

(** X23.  A window that is neither a [GlobalWindow] nor an
    [IntervalWindow] leaves no trace in the formatted string, not even a
    separator. *)
Theorem windows_formatter_skips_other_windows
    (str_of_global_window : string) (event_time_formatter : Z → string)
    (before after : list Window) :
  windows_formatter str_of_global_window event_time_formatter
    (before ++ OtherWindow :: after)
  = windows_formatter str_of_global_window event_time_formatter
      (before ++ after).
Proof.
  unfold windows_formatter. rewrite !omap_app. reflexivity.
Qed.

End FormatterExtras.

Section MaterializeExtras.
Import TestStreamPayload PCollVisualization.
Context {WindowedValue Other : Type}.
Variable WindowedValue_kwargs : Other → option WindowedValue.

Abbreviation CacheManager := (CacheManager WindowedValue Other).
Abbreviation Item := (Item WindowedValue Other).

(** X24.  From a cache whose cursor yields [WindowedValue] objects,
    [_to_element_list] returns exactly these, in order. *)
Theorem to_element_list_returns_windowed_values_as_read
    (cache : CacheManager) (cache_key : string)
    (values : list WindowedValue) :
  cm_exists cache ["full"; cache_key] = Some true →
  cm_read cache ["full"; cache_key]
  = Some ((λ w, ObjectItem (PyWindowedValue w)) <$> values) →
  _to_element_list WindowedValue_kwargs cache cache_key = values.
Proof.
  intros Hex Hread. unfold _to_element_list. rewrite Hex, Hread. simpl.
  clear Hex Hread.
  induction values as [|w values IH]; [reflexivity|].
  simpl. f_equal. exact IH.
Qed.

Lemma decode_elements_sublist (cache : CacheManager) cache_key elements :
  decode_elements WindowedValue_kwargs cache cache_key elements
  `sublist_of`
  omap (decode_element WindowedValue_kwargs cache cache_key) elements.
Proof.
  induction elements as [|tv elements IH]; simpl; [constructor|].
  destruct (decode_element _ cache cache_key tv);
    [apply sublist_skip, IH|apply sublist_nil_l].
Qed.

Lemma materialize_sublist (cache : CacheManager) cache_key
    (items : list Item) :
  materialize WindowedValue_kwargs cache cache_key items
  `sublist_of`
  skipping_only_offending_elements WindowedValue_kwargs cache cache_key
    items.
Proof.
  induction items as [|[[elements tag| |]|o] items IH]; simpl; try exact IH.
  - constructor.
  - apply sublist_app; [apply decode_elements_sublist|exact IH].
  - destruct (as_windowed_value _ o); [apply sublist_skip|]; exact IH.
Qed.

(** X25.  Whatever fails, [_to_element_list] returns, in order, a
    sublist of the values that decode: it drops, but never reorders,
    repeats or invents. *)
Theorem to_element_list_is_sublist_of_decodable
    (cache : CacheManager) (cache_key : string) (items : list Item) :
  cm_exists cache ["full"; cache_key] = Some true →
  cm_read cache ["full"; cache_key] = Some items →
  _to_element_list WindowedValue_kwargs cache cache_key
  `sublist_of`
  skipping_only_offending_elements WindowedValue_kwargs cache cache_key
    items.
Proof.
  intros Hex Hread. unfold _to_element_list. rewrite Hex, Hread. simpl.
  apply materialize_sublist.
Qed.

Lemma decode_elements_all (cache : CacheManager) cache_key elements :
  Forall (λ tv,
            is_Some (decode_element WindowedValue_kwargs cache cache_key tv))
         elements →
  decode_elements WindowedValue_kwargs cache cache_key elements
  = omap (decode_element WindowedValue_kwargs cache cache_key) elements.
Proof.
  induction 1 as [|tv elements [w Hw] _ IH]; simpl; [reflexivity|].
  rewrite Hw, IH. reflexivity.
Qed.

(** X26.  When every element of every [AddElements] event decodes,
    nothing is dropped: the returned list holds every value that
    decodes. *)
Theorem to_element_list_loses_nothing_without_errors
    (cache : CacheManager) (cache_key : string) (items : list Item) :
  cm_exists cache ["full"; cache_key] = Some true →
  cm_read cache ["full"; cache_key] = Some items →
  Forall (λ item,
            match item with
            | EventItem (AddElements elements _) =>
                Forall (λ tv,
                          is_Some (decode_element WindowedValue_kwargs cache
                                     cache_key tv)) elements
            | _ => True
            end) items →
  _to_element_list WindowedValue_kwargs cache cache_key
  = skipping_only_offending_elements WindowedValue_kwargs cache cache_key
      items.
Proof.
  intros Hex Hread Hall. unfold _to_element_list. rewrite Hex, Hread. simpl.
  clear Hex Hread.
  induction Hall as [|[[elements tag| |]|o] items Hitem _ IH]; simpl;
    try exact IH; [reflexivity| |].
  - rewrite decode_elements_all by exact Hitem. f_equal. exact IH.
  - destruct (as_windowed_value _ o); [f_equal|]; exact IH.
Qed.

End MaterializeExtras.

Section MaterializeExtrasWitnesses.
Import TestStreamPayload PCollVisualization ReadBack.

Lemma to_element_list_returns_windowed_values_as_read_witness :
  _to_element_list no_kwargs (plain_cache ["a"; "b"]) "k" = ["a"; "b"].
Proof.
  apply (to_element_list_returns_windowed_values_as_read no_kwargs
           (plain_cache ["a"; "b"]) "k" ["a"; "b"]); reflexivity.
Defined.

Lemma to_element_list_is_sublist_of_decodable_witness :
  _to_element_list no_kwargs one_event_cache "k"
  `sublist_of`
  skipping_only_offending_elements no_kwargs one_event_cache "k"
    [EventItem
       (AddElements [ mkTimestampedElement "a" 0;
                      mkTimestampedElement "bad" 0;
                      mkTimestampedElement "c" 0 ] "t")].
Proof.
  apply (to_element_list_is_sublist_of_decodable no_kwargs one_event_cache
           "k"); reflexivity.
Defined.

Lemma to_element_list_loses_nothing_without_errors_witness :
  _to_element_list no_kwargs watermark_clock_element_cache "k"
  = skipping_only_offending_elements no_kwargs
      watermark_clock_element_cache "k"
      (EventItem
         <$> [ AdvanceProcessingTime 5000000;
               AdvanceWatermark 0 "t";
               AddElements [mkTimestampedElement "a" 0] "t" ]).
Proof.
  apply (to_element_list_loses_nothing_without_errors no_kwargs
           watermark_clock_element_cache "k").
  - reflexivity.
  - reflexivity.
  - repeat constructor. exists "a". reflexivity.
Defined.

End MaterializeExtrasWitnesses.

(* ===================================================================== *)
(** * Further properties of the replay cache *)
(* ===================================================================== *)

Section CacheExtras.
Import TestStreamPayload StreamingCache ReadBack.

Lemma positions_events t log :
  snd <$> processing_time_positions t log = filter is_recorded_event log.
Proof.
  revert t; induction log as [|e log IH]; intros t; [reflexivity|].
  destruct e; simpl.
  - rewrite filter_cons_True by reflexivity. f_equal. apply IH.
  - rewrite filter_cons_True by reflexivity. f_equal. apply IH.
  - rewrite filter_cons_False by (unfold is_recorded_event; simpl; congruence).
    apply IH.
Qed.

Lemma emit_events clock chosen :
  Forall (λ pe, is_processing_time_event pe.2 = false) chosen →
  filter is_recorded_event (emit clock chosen) = snd <$> chosen.
Proof.
  intros Hev; revert clock;
    induction Hev as [|[p e] chosen He _ IH]; intros clock; [reflexivity|].
  simpl in He |- *. destruct (clock <? p).
  - rewrite filter_cons_False
      by (unfold is_recorded_event; simpl; congruence).
    rewrite filter_cons_True by exact He. f_equal. apply IH.
  - rewrite filter_cons_True by exact He. f_equal. apply IH.
Qed.

Lemma merge_order_permutation fuel cursors :
  (remaining cursors ≤ fuel)%nat →
  merge_order fuel cursors ≡ₚ concat cursors.
Proof.
  revert cursors; induction fuel as [|fuel IH]; intros cursors Hfuel.
  - simpl. assert (Hnil : concat cursors = []).
    { apply nil_length_inv. unfold remaining in Hfuel. lia. }
    rewrite Hnil. reflexivity.
  - simpl. destruct (next_event cursors) as [[i [p e]]|] eqn:Hnext.
    + destruct (next_event_Some _ _ _ _ Hnext) as [[rest Hi] _].
      rewrite (advance_cursor_insert _ _ _ _ Hi).
      rewrite (concat_insert_cursor _ _ _ _ Hi). constructor.
      apply IH. rewrite (remaining_insert_cursor _ _ _ _ Hi) in Hfuel. lia.
    + apply next_event_None in Hnext. clear Hfuel IH.
      induction Hnext as [|c cs -> _ IHc]; [reflexivity|exact IHc].
Qed.

Lemma merge_order_single fuel (cursor : list (Z * Event)) :
  (length cursor ≤ fuel)%nat →
  merge_order fuel [cursor] = cursor.
Proof.
  revert cursor; induction fuel as [|fuel IH]; intros [|[p e] cursor] Hfuel;
    simpl in *; try reflexivity; [lia|].
  f_equal. apply IH. lia.
Qed.

Lemma chosen_events_recorded logs :
  Forall (λ pe, is_processing_time_event pe.2 = false) (chosen_events logs).
Proof.
  apply Forall_forall. intros pe Hpe.
  unfold chosen_events in Hpe.
  rewrite merge_order_permutation in Hpe by reflexivity.
  apply list_elem_of_In, in_concat in Hpe as (c & Hc & Hpe).
  apply list_elem_of_In, list_elem_of_fmap in Hc as (log & -> & _).
  apply list_elem_of_In in Hpe.
  pose proof (positions_no_clock_event 0 log) as Hall.
  rewrite Forall_forall in Hall. auto.
Qed.

(** X27.  Reading one cache entry back keeps its recorded events, the
    elements and the watermarks, each exactly once and in the recorded
    order; only advances of the clock are rewritten. *)
Theorem read_keeps_recorded_events_in_order
    (cache : gmap (list string) (list Event)) (labels : list string) :
  filter is_recorded_event (read cache labels)
  = filter is_recorded_event (open_cursor cache labels).
Proof.
  unfold read, read_multiple, Reader_read. simpl.
  rewrite emit_events by apply chosen_events_recorded.
  unfold chosen_events. simpl.
  rewrite merge_order_single.
  - apply positions_events.
  - unfold remaining. simpl. rewrite app_nil_r. reflexivity.
Qed.

(** X28.  [read_multiple] emits every recorded event of the groups it
    reads exactly once, and no other element or watermark event. *)
Theorem read_multiple_emits_every_recorded_event_once
    (cache : gmap (list string) (list Event)) (groups : list (list string)) :
  filter is_recorded_event (read_multiple cache groups)
  ≡ₚ filter is_recorded_event (concat (open_cursor cache <$> groups)).
Proof.
  unfold read_multiple, Reader_read.
  rewrite emit_events by apply chosen_events_recorded.
  unfold chosen_events. rewrite merge_order_permutation by reflexivity.
  induction (open_cursor cache <$> groups) as [|log logs IH];
    [reflexivity|].
  simpl. rewrite fmap_app, filter_app, positions_events, IH. reflexivity.
Qed.

(** The reader reproduces the expected events of [test_single_reader],
    whatever the coder. *)
Example test_single_reader encode :
  Reader_read [single_reader_log encode] = single_reader_expected encode.
Proof. vm_compute. reflexivity. Qed.

End CacheExtras.
